(** * pkg/bigquery/db.go: the BigQuery connector of bruin

    A shallow embedding of the table-materialization reconciliation code of
    [pkg/bigquery/db.go]: qualified-name resolution ([getTableRef]), the
    drift predicates ([IsSamePartitioning], [IsSameClustering],
    [IsPartitioningOrClusteringMismatch], [IsMaterializationTypeMismatch]),
    the drop-on-mismatch step ([DropTableOnMismatch]), the dataset
    provisioner ([CreateDataSetIfNotExist]), the metadata reconciler
    ([UpdateTableMetadataIfNotExist]) and the error translator
    ([formatError]).

    Go strings are byte strings and are modelled by [string]; Go's [error]
    values by the inductive type [error], a nil error by [None]; the two
    process-wide [sync.Map]s by a [gmap] and a [gset]; the BigQuery client,
    an external collaborator, by the interface [Warehouse], every call to
    which is recorded in a trace. *)

From Stdlib Require Import ZArith Ascii String List Bool Lia.
From stdpp Require Import base decidable option list strings gmap.

Local Open Scope string_scope.
Local Open Scope Z_scope.

(** ** Go library functions used by the code *)

Module strings.

(** [strings.Split(s, sep)] for a one-byte separator (the code only
    splits on "."): the substrings between the separators, one more than
    there are separators, so the empty string gives one empty segment. *)
Fixpoint Split (s : string) (sep : ascii) : list string :=
  match s with
  | EmptyString => [EmptyString]
  | String c rest =>
      if Ascii.eqb c sep then EmptyString :: Split rest sep
      else match Split rest sep with
           | seg :: segs => String c seg :: segs
           | [] => [String c EmptyString]
           end
  end.

(** [strings.Join(elems, sep)], the inverse of [Split]; it states what
    [Split] computes. *)
Fixpoint Join (elems : list string) (sep : ascii) : string :=
  match elems with
  | [] => EmptyString
  | [e] => e
  | e :: rest => e ++ String sep (Join rest sep)
  end.

(** The byte [c] occurs in [s]. *)
Fixpoint ContainsByte (s : string) (c : ascii) : bool :=
  match s with
  | EmptyString => false
  | String c' rest => Ascii.eqb c' c || ContainsByte rest c
  end.

(** ASCII lower-casing of one byte. *)
Definition toLower (c : ascii) : ascii :=
  let n := N_of_ascii c in
  if ((65 <=? n) && (n <=? 90))%N then ascii_of_N (n + 32) else c.

(** [strings.EqualFold(s, t)] on ASCII text: equality up to the case of
    the letters A-Z. (Go folds every Unicode letter; the table types and
    materialization types compared by the code are ASCII words.) *)
Fixpoint EqualFold (s t : string) : bool :=
  match s, t with
  | EmptyString, EmptyString => true
  | String a s', String b t' => Ascii.eqb (toLower a) (toLower b) && EqualFold s' t'
  | _, _ => false
  end.

(** [strings.ToLower(s)] on ASCII text. *)
Fixpoint ToLower (s : string) : string :=
  match s with
  | EmptyString => EmptyString
  | String c rest => String (toLower c) (ToLower rest)
  end.

(** Every byte of [s] is below 128. *)
Fixpoint IsASCII (s : string) : bool :=
  match s with
  | EmptyString => true
  | String c rest => (N_of_ascii c <? 128)%N && IsASCII rest
  end.

(** ASCII white space, as [strings.TrimSpace] sees it. *)
Definition isSpace (c : ascii) : bool :=
  match N_of_ascii c with
  | 9%N | 10%N | 11%N | 12%N | 13%N | 32%N => true
  | _ => false
  end.

Fixpoint trimLeft (s : string) : string :=
  match s with
  | EmptyString => EmptyString
  | String c rest => if isSpace c then trimLeft rest else s
  end.

Fixpoint trimRight (s : string) : string :=
  match s with
  | EmptyString => EmptyString
  | String c rest =>
      match trimRight rest with
      | EmptyString => if isSpace c then EmptyString else String c EmptyString
      | r => String c r
      end
  end.

(** [strings.TrimSpace(s)] on ASCII text. *)
Definition TrimSpace (s : string) : string := trimRight (trimLeft s).

End strings.

(** ** Errors *)

(** [googleapi.Error]: the fields the code reads, and the response body as
    the part a bare message drops. *)
Record GoogleApiError := {
  Code : Z;
  Message : string;
  Body : string;
}.

(** Go's [error] values as the code builds and inspects them. *)
Inductive error :=
| errorString (text : string)            (* errors.New, fmt.Errorf without %w *)
| googleapiError (e : GoogleApiError)    (* *googleapi.Error *)
| NoMetadataUpdatedError                 (* NoMetadataUpdatedError{} *)
| wrapError (msg : string) (err : error) (* errors.Wrap, fmt.Errorf with %w *).

#[global] Instance GoogleApiError_eq_dec : EqDecision GoogleApiError.
Proof. solve_decision. Defined.
#[global] Instance error_eq_dec : EqDecision error.
Proof. solve_decision. Defined.

Module errors.

(** [errors.As(err, &target)] for a target of type [*googleapi.Error]:
    the first error of that type along the chain of [Unwrap]. *)
Fixpoint As (err : error) : option GoogleApiError :=
  match err with
  | googleapiError e => Some e
  | wrapError _ inner => As inner
  | errorString _ | NoMetadataUpdatedError => None
  end.

(** [errors.Wrap(err, message)]. *)
Definition Wrap (err : error) (message : string) : error := wrapError message err.

End errors.

(** [NoMetadataUpdatedError.Error()]. *)
Definition NoMetadataUpdatedError_Error : string :=
  "no metadata found for the given asset to be pushed to BigQuery".

(** The chain of [err] holds no [NoMetadataUpdatedError]: true of every
    error the client library returns, which cannot build a value of a type
    this package declares. *)
Fixpoint isForeign (err : error) : bool :=
  match err with
  | NoMetadataUpdatedError => false
  | wrapError _ inner => isForeign inner
  | errorString _ | googleapiError _ => true
  end.

(** ** Data model *)

(** The asset model of [pkg/pipeline], consumed read-only: the fields the
    code reads. *)
Module pipeline.

Module Column.
Record t := {
  Name : string;
  Description : string;
  PrimaryKey : bool;
}.
End Column.

Module Materialization.
Record t := {
  Type_ : string;          (* MaterializationType, a string type *)
  PartitionBy : string;
  ClusterBy : list string;
}.
End Materialization.

Module Asset.
Record t := {
  Name : string;
  Description : string;
  Columns : list Column.t;
  Materialization : Materialization.t;
}.

(** Modelled from the spec: the method [ColumnNamesWithPrimaryKey] of
    [pipeline.Asset], declared outside src/; "all asset columns flagged
    as primary key", in the order of the column list. *)
Definition ColumnNamesWithPrimaryKey (a : t) : list string :=
  map Column.Name (filter (fun c => Column.PrimaryKey c = true) (Columns a)).
End Asset.

End pipeline.

(** The types of [cloud.google.com/go/bigquery] the code reads and
    builds. *)
Module bigquery.

(** [*bigquery.Table], as [DatasetInProject(project, dataset).Table(table)]
    builds it. *)
Module Table.
Record t := {
  ProjectID : string;
  DatasetID : string;
  TableID : string;
}.
End Table.

Module TimePartitioning.
Record t := { Field : string }.
End TimePartitioning.

Module RangePartitioning.
Record t := { Field : string }.
End RangePartitioning.

Module Clustering.
Record t := { Fields : list string }.
End Clustering.

Module FieldSchema.
Record t := {
  Name : string;
  Description : string;
  Type_ : string;
}.
End FieldSchema.

Module PrimaryKey.
Record t := { Columns : list string }.
End PrimaryKey.

Module TableConstraints.
Record t := { PrimaryKey : option PrimaryKey.t }.
End TableConstraints.

(** [bigquery.TableMetadata]; a nil pointer is [None]. *)
Module TableMetadata.
Record t := {
  Type_ : string;          (* TableType, a string type *)
  Description : string;
  Schema : list FieldSchema.t;
  TimePartitioning : option TimePartitioning.t;
  RangePartitioning : option RangePartitioning.t;
  Clustering : option Clustering.t;
  TableConstraints : option TableConstraints.t;
  ETag : string;
}.
End TableMetadata.

(** [bigquery.TableMetadataToUpdate]; a field left unset is [None]. *)
Module TableMetadataToUpdate.
Record t := {
  Description : option string;
  Schema : option (list FieldSchema.t);
  TableConstraints : option TableConstraints.t;
}.
End TableMetadataToUpdate.

Definition DatasetInProject_Table (project dataset table : string) : Table.t :=
  {| Table.ProjectID := project; Table.DatasetID := dataset; Table.TableID := table |}.

End bigquery.

Import pipeline bigquery.

#[global] Instance Table_eq_dec : EqDecision Table.t.
Proof. solve_decision. Defined.

(** [Config]: the field the code reads. *)
Module Config.
Record t := { ProjectID : string }.
End Config.

(** ** Qualified names *)

(** The message of the malformed-name error of [getTableRef] and
    [BuildTableExistsQuery]. *)
Definition malformedName (tableName : string) : error :=
  errorString ("table name must be in dataset.table or project.dataset.table format, '"
               ++ tableName ++ "' given").

(** The loop [for _, component := range tableComponents] with its early
    return: some component is empty. *)
Fixpoint anyEmpty (tableComponents : list string) : bool :=
  match tableComponents with
  | [] => false
  | component :: rest => if String.eqb component "" then true else anyEmpty rest
  end.

(** [(d *Client) getTableRef]. *)
Definition getTableRef (config : Config.t) (tableName : string) : Table.t + error :=
  let tableComponents := strings.Split tableName "." in
  if anyEmpty tableComponents then inr (malformedName tableName)
  else match tableComponents with
       | [c0; c1] => inl (DatasetInProject_Table (Config.ProjectID config) c0 c1)
       | [c0; c1; c2] => inl (DatasetInProject_Table c0 c1 c2)
       | _ => inr (malformedName tableName)
       end.

(** [(d *Client) BuildTableExistsQuery]. The query text is built with a
    leading newline and two tabs, which [strings.TrimSpace] removes; the
    text ends in a parenthesis, so nothing is trimmed at the end. *)
Definition BuildTableExistsQuery (config : Config.t) (tableName : string) : string + error :=
  let tableComponents := strings.Split tableName "." in
  if anyEmpty tableComponents then inr (malformedName tableName)
  else
    let build datasetRef targetTable :=
      strings.TrimSpace
        (String "010" (String "009" (String "009"
           ("SELECT EXISTS (SELECT 1 FROM " ++ datasetRef
            ++ " WHERE table_name = '" ++ targetTable ++ "')")))) in
    match tableComponents with
    | [c0; c1] =>
        inl (build (Config.ProjectID config ++ "." ++ c0 ++ ".INFORMATION_SCHEMA.TABLES") c1)
    | [c0; c1; c2] =>
        inl (build (c0 ++ "." ++ c1 ++ ".INFORMATION_SCHEMA.TABLES") c2)
    | _ => inr (malformedName tableName)
    end.

(** ** Error translation *)

(** [formatError]. *)
Definition formatError (err : error) : error :=
  match errors.As err with
  | None => err
  | Some googleError =>
      if (Code googleError =? 404) || (Code googleError =? 400)
      then errorString (Message googleError)
      else googleapiError googleError
  end.

(** ** Drift detection *)

(** A nil pointer. *)
Definition isNil {A : Type} (p : option A) : bool :=
  match p with
  | None => true
  | Some _ => false
  end.

(** [IsSamePartitioning]. *)
Definition IsSamePartitioning (meta : TableMetadata.t) (asset : Asset.t) : bool :=
  let partitionBy := Materialization.PartitionBy (Asset.Materialization asset) in
  if negb (String.eqb partitionBy "")
     && isNil (TableMetadata.TimePartitioning meta)
     && isNil (TableMetadata.RangePartitioning meta)
  then false
  else if isNil (TableMetadata.TimePartitioning meta)
          && isNil (TableMetadata.RangePartitioning meta)
  then true
  else if match TableMetadata.TimePartitioning meta with
          | Some p => negb (String.eqb (TimePartitioning.Field p) partitionBy)
          | None => false
          end
  then false
  else if match TableMetadata.RangePartitioning meta with
          | Some p => negb (String.eqb (RangePartitioning.Field p) partitionBy)
          | None => false
          end
  then false
  else true.

(** The loop of [IsSameClustering] over two slices of equal length: the
    first position where they differ returns false. *)
Fixpoint sameFields (bigQueryFields userFields : list string) : bool :=
  match bigQueryFields, userFields with
  | b :: bs, u :: us => if String.eqb b u then sameFields bs us else false
  | _, _ => true
  end.

(** [IsSameClustering]. *)
Definition IsSameClustering (meta : TableMetadata.t) (asset : Asset.t) : bool :=
  let userFields := Materialization.ClusterBy (Asset.Materialization asset) in
  if (0 <? length userFields)%nat
     && match TableMetadata.Clustering meta with
        | None => true
        | Some c => (length (Clustering.Fields c) =? 0)%nat
        end
  then false
  else match TableMetadata.Clustering meta with
       | None => true
       | Some c =>
           let bigQueryFields := Clustering.Fields c in
           if negb (length bigQueryFields =? length userFields)%nat then false
           else sameFields bigQueryFields userFields
       end.

(** [(d *Client) IsPartitioningOrClusteringMismatch]. *)
Definition IsPartitioningOrClusteringMismatch (meta : TableMetadata.t) (asset : Asset.t) : bool :=
  let m := Asset.Materialization asset in
  if negb (isNil (TableMetadata.TimePartitioning meta))
     || negb (isNil (TableMetadata.RangePartitioning meta))
     || negb (String.eqb (Materialization.PartitionBy m) "")
     || (0 <? length (Materialization.ClusterBy m))%nat
  then
    if negb (IsSamePartitioning meta asset) || negb (IsSameClustering meta asset)
    then true else false
  else false.

(** ** The warehouse client and the process state *)

(** The calls the code makes on the BigQuery client, as the trace records
    them. *)
Inductive Call :=
| DatasetMetadataCall (projectID datasetName : string)
| DatasetCreateCall (projectID datasetName : string)
| TableMetadataCall (tableRef : Table.t)
| TableUpdateCall (tableRef : Table.t) (update : TableMetadataToUpdate.t) (etag : string)
| TableDeleteCall (tableRef : Table.t).

(** The BigQuery client over a warehouse of states [W]: each operation
    answers from the state and may change it. The client library cannot
    return the [NoMetadataUpdatedError] of this package. *)
Class Warehouse (W : Type) := {
  Dataset_Metadata : string -> string -> W -> option error * W;
  Dataset_Create : string -> string -> W -> option error * W;
  Table_Metadata : Table.t -> W -> (TableMetadata.t + error) * W;
  Table_Update : Table.t -> TableMetadataToUpdate.t -> string -> W -> option error * W;
  Table_Delete : Table.t -> W -> option error * W;
  Table_Metadata_foreign :
    forall tableRef w e w', Table_Metadata tableRef w = (inr e, w') -> isForeign e = true;
}.

(** What a run of the process has: the warehouse behind the client, the
    two package-level maps [datasetNameCache] and [datasetLocks], and the
    calls made so far, oldest first. A mutex of [datasetLocks] is locked
    and, by [defer], unlocked within one call of
    [CreateDataSetIfNotExist]; in a sequential run it is free between
    calls, so only its presence in the map is kept. *)
Record Process (W : Type) := mkProcess {
  warehouse : W;
  datasetNameCache : gmap string bool;
  datasetLocks : gset string;
  calls : list Call;
}.
Arguments mkProcess {W}.
Arguments warehouse {W}.
Arguments datasetNameCache {W}.
Arguments datasetLocks {W}.
Arguments calls {W}.

(** Code that runs in a process: a state transformer with a result. *)
Definition M (W A : Type) : Type := Process W -> A * Process W.

#[global] Instance M_ret (W : Type) : MRet (M W) := fun A a p => (a, p).
#[global] Instance M_bind (W : Type) : MBind (M W) :=
  fun A B k m p => let '(a, p') := m p in k a p'.

Section Client.
Context {W : Type} `{!Warehouse W}.

(** The constant [pipeline.MaterializationTypeNone], declared outside
    src/. *)
Variable MaterializationTypeNone : string.

(** The receiver [d *Client]: its configuration. *)
Variable config : Config.t.

(** A call on the client: it is appended to the trace and answered by
    the warehouse. *)
Definition network {A : Type} (c : Call) (op : W -> A * W) : M W A :=
  fun p =>
    let '(a, w) := op (warehouse p) in
    (a, mkProcess w (datasetNameCache p) (datasetLocks p) (calls p ++ [c])).

(** [datasetNameCache.Load(cacheKey)]: only presence is used. *)
Definition cacheLoad (cacheKey : string) : M W bool :=
  fun p => (bool_decide (is_Some (datasetNameCache p !! cacheKey)), p).

(** [datasetNameCache.Store(cacheKey, true)]. *)
Definition cacheStore (cacheKey : string) : M W unit :=
  fun p =>
    (tt, mkProcess (warehouse p) (<[cacheKey := true]> (datasetNameCache p))
                   (datasetLocks p) (calls p)).

(** [datasetLocks.LoadOrStore(cacheKey, &sync.Mutex{})], then
    [mutex.Lock()] with [defer mutex.Unlock()]. *)
Definition lockDataset (cacheKey : string) : M W unit :=
  fun p =>
    (tt, mkProcess (warehouse p) (datasetNameCache p)
                   ({[cacheKey]} ∪ datasetLocks p) (calls p)).

(** [errors.As(err, &apiErr) && apiErr.Code == 404]. *)
Definition isNotFound (err : error) : bool :=
  match errors.As err with
  | Some apiErr => Code apiErr =? 404
  | None => false
  end.

(** [(d *Client) IsMaterializationTypeMismatch]. *)
Definition IsMaterializationTypeMismatch (meta : TableMetadata.t) (asset : Asset.t) : bool :=
  if String.eqb (Materialization.Type_ (Asset.Materialization asset)) MaterializationTypeNone
  then false
  else
    let tableType := TableMetadata.Type_ meta in
    negb (strings.EqualFold tableType (Materialization.Type_ (Asset.Materialization asset))).

(** [(d *Client) DropTableOnMismatch]. *)
Definition DropTableOnMismatch (tableName : string) (asset : Asset.t) : M W (option error) :=
  match getTableRef config tableName with
  | inr err => mret (Some err)
  | inl tableRef =>
      r ← network (TableMetadataCall tableRef) (Table_Metadata tableRef);
      match r with
      | inr err =>
          if isNotFound err then mret None
          else mret (Some (wrapError ("failed to fetch metadata for table '" ++ tableName ++ "'") err))
      | inl meta =>
          if IsMaterializationTypeMismatch meta asset
             || IsPartitioningOrClusteringMismatch meta asset
          then
            r ← network (TableDeleteCall tableRef) (Table_Delete tableRef);
            match r with
            | Some err =>
                mret (Some (wrapError ("failed to delete table '" ++ tableName ++ "'") err))
            | None => mret None
            end
          else mret None
      end
  end.

(** [CreateDataSetIfNotExist] below its switch: the cache key, the two
    look-ups of the cache around the lock, the probe and the creation. *)
Definition provision (tableName projectID datasetName : string) : M W (option error) :=
  let cacheKey := projectID ++ "." ++ datasetName in
  exists_ ← cacheLoad cacheKey;
  if exists_ : bool then mret None
  else
    _ ← lockDataset cacheKey;
    exists_ ← cacheLoad cacheKey;
    if exists_ : bool then mret None
    else
      r ← network (DatasetMetadataCall projectID datasetName)
                  (Dataset_Metadata projectID datasetName);
      match r with
      | Some err =>
          if isNotFound err then
            r ← network (DatasetCreateCall projectID datasetName)
                        (Dataset_Create projectID datasetName);
            match r with
            | Some err =>
                mret (Some (wrapError ("failed to create dataset '" ++ datasetName ++ "'") err))
            | None =>
                _ ← cacheStore cacheKey;
                mret None
            end
          else
            mret (Some (wrapError ("failed to fetch metadata for table '" ++ tableName ++ "'") err))
      | None => mret None
      end.

(** [(d *Client) CreateDataSetIfNotExist]. *)
Definition CreateDataSetIfNotExist (asset : Asset.t) : M W (option error) :=
  let tableName := Asset.Name asset in
  let tableComponents := strings.Split tableName "." in
  match tableComponents with
  | [c0; c1] => provision tableName (Config.ProjectID config) c0
  | [c0; c1; c2] => provision tableName c0 c1
  | _ => mret None
  end.

(** The first loop of [UpdateTableMetadataIfNotExist]: the columns by
    name (each entry its own copy of the column, as loop variables are
    from Go 1.22), a later column of the same name replacing an earlier
    one, and whether any column has a description. *)
Fixpoint columnsLoop (cols : list Column.t) (colsByName : gmap string Column.t)
         (anyColumnHasDescription : bool) : gmap string Column.t * bool :=
  match cols with
  | [] => (colsByName, anyColumnHasDescription)
  | col :: rest =>
      columnsLoop rest (<[Column.Name col := col]> colsByName)
                  (if negb (String.eqb (Column.Description col) "") then true
                   else anyColumnHasDescription)
  end.

(** The second loop: every field of the live schema that has a column of
    its name takes that column's description (the fields are updated in
    place), and [colsChanged] records that some field had one. *)
Fixpoint schemaLoop (colsByName : gmap string Column.t) (schema : list FieldSchema.t)
         (colsChanged : bool) : list FieldSchema.t * bool :=
  match schema with
  | [] => ([], colsChanged)
  | field :: rest =>
      match colsByName !! FieldSchema.Name field with
      | Some col =>
          let '(rest', changed) := schemaLoop colsByName rest true in
          ({| FieldSchema.Name := FieldSchema.Name field;
              FieldSchema.Description := Column.Description col;
              FieldSchema.Type_ := FieldSchema.Type_ field |} :: rest', changed)
      | None =>
          let '(rest', changed) := schemaLoop colsByName rest colsChanged in
          (field :: rest', changed)
      end
  end.

(** The update request [UpdateTableMetadataIfNotExist] builds from the
    asset and the live metadata. *)
Definition buildUpdate (asset : Asset.t) (colsByName : gmap string Column.t)
           (meta : TableMetadata.t) : TableMetadataToUpdate.t :=
  let '(schema, colsChanged) := schemaLoop colsByName (TableMetadata.Schema meta) false in
  let primaryKeys := Asset.ColumnNamesWithPrimaryKey asset in
  {| TableMetadataToUpdate.Schema := if colsChanged then Some schema else None;
     TableMetadataToUpdate.Description :=
       if negb (String.eqb (Asset.Description asset) "")
       then Some (Asset.Description asset) else None;
     TableMetadataToUpdate.TableConstraints :=
       if (0 <? length primaryKeys)%nat
       then Some {| TableConstraints.PrimaryKey :=
                      Some {| PrimaryKey.Columns := primaryKeys |} |}
       else None |}.

(** [(d *Client) UpdateTableMetadataIfNotExist]. *)
Definition UpdateTableMetadataIfNotExist (asset : Asset.t) : M W (option error) :=
  let '(colsByName, anyColumnHasDescription) := columnsLoop (Asset.Columns asset) ∅ false in
  if String.eqb (Asset.Description asset) ""
     && ((length (Asset.Columns asset) =? 0)%nat || negb anyColumnHasDescription)
  then mret (Some NoMetadataUpdatedError)
  else
    match getTableRef config (Asset.Name asset) with
    | inr err => mret (Some err)
    | inl tableRef =>
        r ← network (TableMetadataCall tableRef) (Table_Metadata tableRef);
        match r with
        | inr err => if isNotFound err then mret None else mret (Some err)
        | inl meta =>
            let update := buildUpdate asset colsByName meta in
            r ← network (TableUpdateCall tableRef update (TableMetadata.ETag meta))
                        (Table_Update tableRef update (TableMetadata.ETag meta));
            match r with
            | Some err => mret (Some (errors.Wrap err "failed to update table metadata"))
            | None => mret None
            end
        end
    end.

End Client.

(** ** A warehouse in memory

    An instance of the client interface to run the code on: a warehouse
    holding datasets and tables, with a switch that makes deletions fail.
    A missing dataset or table is answered with the API error 404. *)
Module Mem.

Record t := mk {
  datasets : list (string * string);
  tables : list (Table.t * TableMetadata.t);
  deleteFails : option GoogleApiError;
}.

Definition notFound (what : string) : error :=
  googleapiError {| Code := 404; Message := "Not found: " ++ what; Body := "{}" |}.

Fixpoint lookupTable (tableRef : Table.t) (ts : list (Table.t * TableMetadata.t))
  : option TableMetadata.t :=
  match ts with
  | [] => None
  | (r, meta) :: rest => if decide (r = tableRef) then Some meta else lookupTable tableRef rest
  end.

Fixpoint removeTable (tableRef : Table.t) (ts : list (Table.t * TableMetadata.t))
  : list (Table.t * TableMetadata.t) :=
  match ts with
  | [] => []
  | (r, meta) :: rest =>
      if decide (r = tableRef) then removeTable tableRef rest
      else (r, meta) :: removeTable tableRef rest
  end.

Fixpoint hasDataset (projectID datasetName : string) (ds : list (string * string)) : bool :=
  match ds with
  | [] => false
  | (p, d) :: rest =>
      (String.eqb p projectID && String.eqb d datasetName) || hasDataset projectID datasetName rest
  end.

Definition datasetMetadata (projectID datasetName : string) (w : t) : option error * t :=
  if hasDataset projectID datasetName (datasets w) then (None, w)
  else (Some (notFound datasetName), w).

Definition datasetCreate (projectID datasetName : string) (w : t) : option error * t :=
  (None, mk ((projectID, datasetName) :: datasets w) (tables w) (deleteFails w)).

Definition tableMetadata (tableRef : Table.t) (w : t) : (TableMetadata.t + error) * t :=
  match lookupTable tableRef (tables w) with
  | Some meta => (inl meta, w)
  | None => (inr (notFound (Table.TableID tableRef)), w)
  end.

(** The update is accepted when the table exists; the stored metadata is
    left as it is, the tests read the trace. *)
Definition tableUpdate (tableRef : Table.t) (update : TableMetadataToUpdate.t)
           (etag : string) (w : t) : option error * t :=
  match lookupTable tableRef (tables w) with
  | Some _ => (None, w)
  | None => (Some (notFound (Table.TableID tableRef)), w)
  end.

Definition tableDelete (tableRef : Table.t) (w : t) : option error * t :=
  match deleteFails w with
  | Some e => (Some (googleapiError e), w)
  | None => (None, mk (datasets w) (removeTable tableRef (tables w)) (deleteFails w))
  end.

Lemma tableMetadata_foreign tableRef w e w' :
  tableMetadata tableRef w = (inr e, w') -> isForeign e = true.
Proof.
  unfold tableMetadata. destruct (lookupTable tableRef (tables w)); intros E.
  - discriminate.
  - injection E as <- _. reflexivity.
Defined.

#[global] Instance warehouse : Warehouse t := {|
  Dataset_Metadata := datasetMetadata;
  Dataset_Create := datasetCreate;
  Table_Metadata := tableMetadata;
  Table_Update := tableUpdate;
  Table_Delete := tableDelete;
  Table_Metadata_foreign := tableMetadata_foreign;
|}.

(** A process at its start: both maps empty, no call made. *)
Definition start (w : t) : Process t := mkProcess w ∅ ∅ [].

End Mem.

(** ** The conditions the specification names *)

(** The accepted forms of a qualified name: 2 or 3 segments, none of them
    empty. *)
Definition wellFormedSegments (segs : list string) : Prop :=
  (length segs = 2%nat \/ length segs = 3%nat) /\ Forall (fun seg => seg <> "") segs.

(** The asset has neither a top-level description nor a column with a
    non-empty description. *)
Definition nothingToPush (asset : Asset.t) : Prop :=
  Asset.Description asset = "" /\
  Forall (fun col => Column.Description col = "") (Asset.Columns asset).

(** The number of delete calls in a trace. *)
Fixpoint deleteCalls (cs : list Call) : nat :=
  match cs with
  | [] => 0
  | TableDeleteCall _ :: rest => S (deleteCalls rest)
  | _ :: rest => deleteCalls rest
  end.

(** The number of dataset probes and creations in a trace. *)
Fixpoint datasetCalls (projectID datasetName : string) (cs : list Call) : nat :=
  match cs with
  | [] => 0
  | DatasetMetadataCall p d :: rest | DatasetCreateCall p d :: rest =>
      (if String.eqb p projectID && String.eqb d datasetName then 1 else 0)
      + datasetCalls projectID datasetName rest
  | _ :: rest => datasetCalls projectID datasetName rest
  end%nat.

(** ** Assets and tables the examples run on *)
Module Fixtures.

Definition home : Config.t := {| Config.ProjectID := "home" |}.

Definition asset (name description : string) (columns : list Column.t)
           (type partitionBy : string) (clusterBy : list string) : Asset.t :=
  {| Asset.Name := name;
     Asset.Description := description;
     Asset.Columns := columns;
     Asset.Materialization :=
       {| Materialization.Type_ := type;
          Materialization.PartitionBy := partitionBy;
          Materialization.ClusterBy := clusterBy |} |}.

Definition live (type : string) (timePartitioning : option string)
           (rangePartitioning : option string) (clustering : option (list string))
           (constraints : option TableConstraints.t) : TableMetadata.t :=
  {| TableMetadata.Type_ := type;
     TableMetadata.Description := "";
     TableMetadata.Schema :=
       [ {| FieldSchema.Name := "id"; FieldSchema.Description := ""; FieldSchema.Type_ := "INTEGER" |} ];
     TableMetadata.TimePartitioning :=
       option_map (fun f => {| TimePartitioning.Field := f |}) timePartitioning;
     TableMetadata.RangePartitioning :=
       option_map (fun f => {| RangePartitioning.Field := f |}) rangePartitioning;
     TableMetadata.Clustering :=
       option_map (fun fs => {| Clustering.Fields := fs |}) clustering;
     TableMetadata.TableConstraints := constraints;
     TableMetadata.ETag := "etag-1" |}.

(** A plain asset: a table with no partition column and no cluster
    columns. *)
Definition plainAsset : Asset.t := asset "proj.ds.events" "" [] "table" "" [].

(** A live table clustered by one field, not partitioned. *)
Definition clusteredLive : TableMetadata.t := live "TABLE" None None (Some ["a"]) None.

(** The scenario of the specification: the asset "proj.ds.events", a
    table partitioned by "event_date", against a live table partitioned by
    the same field, and against one partitioned by "created_at". *)
Definition eventsRef : Table.t :=
  {| Table.ProjectID := "proj"; Table.DatasetID := "ds"; Table.TableID := "events" |}.
Definition eventsAsset : Asset.t := asset "proj.ds.events" "" [] "table" "event_date" [].
Definition matchingWarehouse : Mem.t :=
  Mem.mk [("proj", "ds")] [(eventsRef, live "TABLE" (Some "event_date") None None None)] None.
Definition driftedWarehouse : Mem.t :=
  Mem.mk [("proj", "ds")] [(eventsRef, live "TABLE" (Some "created_at") None None None)] None.

(** An asset with a description and the primary key "id", and a warehouse
    whose live table already has that primary key. *)
Definition usersRef : Table.t :=
  {| Table.ProjectID := "home"; Table.DatasetID := "ds"; Table.TableID := "users" |}.
Definition usersAsset : Asset.t :=
  asset "ds.users" "Users of the shop"
        [ {| Column.Name := "id"; Column.Description := ""; Column.PrimaryKey := true |} ]
        "table" "" [].
Definition idKey : TableConstraints.t :=
  {| TableConstraints.PrimaryKey := Some {| PrimaryKey.Columns := ["id"] |} |}.
Definition usersLive : TableMetadata.t := live "TABLE" None None None (Some idKey).
Definition usersWarehouse : Mem.t := Mem.mk [("home", "ds")] [(usersRef, usersLive)] None.

(** A warehouse in which the dataset "ds" of the home project exists, and
    one without datasets. *)
Definition datasetWarehouse : Mem.t := Mem.mk [("home", "ds")] [] None.
Definition emptyWarehouse : Mem.t := Mem.mk [] [] None.

(** A process in which the key of the dataset "home.ds" is cached. *)
Definition cachedProcess : Process Mem.t :=
  mkProcess emptyWarehouse (<["home.ds" := true]> ∅) ∅ [].

(** An API error with a status other than 400 and 404. *)
Definition serverError : GoogleApiError :=
  {| Code := 500; Message := "backend error"; Body := "{}" |}.

End Fixtures.

(** ** The query facade *)

(** [query.Query] of [pkg/query]: the query text; its methods [String] and
    [ToDryRunQuery] are declared outside src/ and are parameters below. *)
Module Query.
Record t := { Query : string }.
End Query.

(** [bigquery.RowIterator] once the query has been read: the schema of
    the result (nil is [None]) and what the successive calls of [Next]
    answer, a row or an error, before [iterator.Done]. *)
Module RowIterator.
Record t (Value : Type) := mk {
  Schema : option (list FieldSchema.t);
  pending : list (list Value + error);
}.
Arguments mk {Value}.
Arguments Schema {Value}.
Arguments pending {Value}.
End RowIterator.

(** [query.QueryResult]. *)
Module QueryResult.
Record t (Value : Type) := mk {
  Columns : list string;
  Rows : list (list Value);
  ColumnTypes : list string;
}.
Arguments mk {Value}.
Arguments Columns {Value}.
Arguments Rows {Value}.
Arguments ColumnTypes {Value}.
End QueryResult.

(** The query side of the BigQuery client over a service of states [Q]:
    [client.Query(text).Read(ctx)], and [Run(ctx)] of a query with
    [DryRun] set, which answers with the error of the job's last status
    ([job.LastStatus().Err()]) or fails to start. *)
Class QueryClient (Q Value : Type) := {
  Query_Read : string -> Q -> (RowIterator.t Value + error) * Q;
  Query_DryRun : string -> Q -> (option error + error) * Q;
}.

Section Querier.
Context {Q Value : Type} `{!QueryClient Q Value}.

(** The methods [String] and [ToDryRunQuery] of [query.Query], declared
    outside src/. *)
Variable Query_String : Query.t -> string.
Variable Query_ToDryRunQuery : Query.t -> string.

(** [(d *Client) IsValid]. *)
Definition IsValid (query : Query.t) (q : Q) : (bool * option error) * Q :=
  let '(r, q') := Query_DryRun (Query_ToDryRunQuery query) q in
  match r with
  | inr err => ((false, Some (formatError err)), q')
  | inl status =>
      match status with
      | Some err => ((false, Some err), q')
      | None => ((true, None), q')
      end
  end.

(** [(d *Client) RunQueryWithoutResult]. *)
Definition RunQueryWithoutResult (query : Query.t) (q : Q) : option error * Q :=
  let '(r, q') := Query_Read (Query_String query) q in
  match r with
  | inr err => (Some (formatError err), q')
  | inl _ => (None, q')
  end.

(** The loop of [Select] over [rows.Next]: every row is appended to the
    result (its values copied one by one into a slice of the same
    length), the first error is returned, [iterator.Done] ends the
    loop. *)
Fixpoint selectLoop (pending : list (list Value + error)) (result : list (list Value))
  : list (list Value) + error :=
  match pending with
  | [] => inl result
  | inr err :: _ => inr err
  | inl values :: rest => selectLoop rest (result ++ [values])
  end.

(** [(d *Client) Select]. *)
Definition Select (query : Query.t) (q : Q) : (list (list Value) + error) * Q :=
  let '(r, q') := Query_Read (Query_String query) q in
  match r with
  | inr err => (inr (formatError err), q')
  | inl rows => (selectLoop (RowIterator.pending rows) [], q')
  end.

(** The row loop of [SelectWithSchema]: as in [Select], but an error is
    wrapped. *)
Fixpoint selectWithSchemaLoop (pending : list (list Value + error)) (rows : list (list Value))
  : list (list Value) + error :=
  match pending with
  | [] => inl rows
  | inr err :: _ => inr (wrapError "failed to read row" err)
  | inl values :: rest => selectWithSchemaLoop rest (rows ++ [values])
  end.

(** The loop of [SelectWithSchema] over the schema: the name of every
    field is appended to the columns and its type to the column types. *)
Fixpoint schemaColumns (schema : list FieldSchema.t) (columns columnTypes : list string)
  : list string * list string :=
  match schema with
  | [] => (columns, columnTypes)
  | field :: rest =>
      schemaColumns rest (columns ++ [FieldSchema.Name field])
                    (columnTypes ++ [FieldSchema.Type_ field])
  end.

(** [(d *Client) SelectWithSchema]. *)
Definition SelectWithSchema (queryObj : Query.t) (q : Q)
  : (QueryResult.t Value + error) * Q :=
  let '(r, q') := Query_Read (Query_String queryObj) q in
  match r with
  | inr err => (inr (wrapError "failed to initiate query read" err), q')
  | inl rows =>
      match selectWithSchemaLoop (RowIterator.pending rows) [] with
      | inr err => (inr err, q')
      | inl resultRows =>
          match RowIterator.Schema rows with
          | Some schema =>
              let '(columns, columnTypes) := schemaColumns schema [] [] in
              (inl (QueryResult.mk columns resultRows columnTypes), q')
          | None => (inr (errorString "schema information is not available"), q')
          end
      end
  end.

(** [(d *Client) Ping]. *)
Definition Ping (q : Q) : option error * Q :=
  let '(r, q') := RunQueryWithoutResult {| Query.Query := "SELECT 1" |} q in
  match r with
  | Some err =>
      (Some (errors.Wrap err "failed to run test query on Bigquery connection"), q')
  | None => (None, q')
  end.

End Querier.

(** ** A warehouse with failures

    The warehouse in memory behind a client whose reads (the two metadata
    fetches) or writes (create, update, delete) can be made to fail with a
    given API error. *)
Module Faulty.

Record t := mk {
  inner : Mem.t;
  failReads : option GoogleApiError;
  failWrites : option GoogleApiError;
}.

Definition lift {A : Type} (r : A * Mem.t) (w : t) : A * t :=
  (r.1, mk r.2 (failReads w) (failWrites w)).

Definition datasetMetadata (projectID datasetName : string) (w : t) : option error * t :=
  match failReads w with
  | Some e => (Some (googleapiError e), w)
  | None => lift (Mem.datasetMetadata projectID datasetName (inner w)) w
  end.

Definition datasetCreate (projectID datasetName : string) (w : t) : option error * t :=
  match failWrites w with
  | Some e => (Some (googleapiError e), w)
  | None => lift (Mem.datasetCreate projectID datasetName (inner w)) w
  end.

Definition tableMetadata (tableRef : Table.t) (w : t) : (TableMetadata.t + error) * t :=
  match failReads w with
  | Some e => (inr (googleapiError e), w)
  | None => lift (Mem.tableMetadata tableRef (inner w)) w
  end.

Definition tableUpdate (tableRef : Table.t) (update : TableMetadataToUpdate.t)
           (etag : string) (w : t) : option error * t :=
  match failWrites w with
  | Some e => (Some (googleapiError e), w)
  | None => lift (Mem.tableUpdate tableRef update etag (inner w)) w
  end.

Definition tableDelete (tableRef : Table.t) (w : t) : option error * t :=
  match failWrites w with
  | Some e => (Some (googleapiError e), w)
  | None => lift (Mem.tableDelete tableRef (inner w)) w
  end.

Lemma faulty_tableMetadata_foreign tableRef w e w' :
  tableMetadata tableRef w = (inr e, w') -> isForeign e = true.
Proof.
  unfold tableMetadata, lift. destruct (failReads w).
  - intros [= <- _]. reflexivity.
  - destruct (Mem.tableMetadata tableRef (inner w)) as [r m] eqn:E. simpl.
    intros [= -> _]. exact (Mem.tableMetadata_foreign _ _ _ _ E).
Defined.

#[global] Instance warehouse : Warehouse t := {|
  Dataset_Metadata := datasetMetadata;
  Dataset_Create := datasetCreate;
  Table_Metadata := tableMetadata;
  Table_Update := tableUpdate;
  Table_Delete := tableDelete;
  Table_Metadata_foreign := faulty_tableMetadata_foreign;
|}.

Definition start (w : t) : Process t := mkProcess w ∅ ∅ [].

End Faulty.

(** ** A query service that answers from a table

    Every query text is answered with the iterator, the dry-run status or
    the failure the table has for it; an unknown text fails with the API
    error 400. *)
Module Canned.

Inductive answer :=
| Rows (rows : RowIterator.t Z)
| Rejected (err : error)   (* the job runs and its status holds the error *)
| Fails (err : error).     (* the call itself fails *)

Definition t := list (string * answer).

Definition invalidQuery : error :=
  googleapiError {| Code := 400; Message := "Syntax error"; Body := "{}" |}.

Fixpoint find (text : string) (service : t) : answer :=
  match service with
  | [] => Fails invalidQuery
  | (text', a) :: rest => if String.eqb text' text then a else find text rest
  end.

Definition read (text : string) (service : t) : (RowIterator.t Z + error) * t :=
  match find text service with
  | Rows rows => (inl rows, service)
  | Rejected err | Fails err => (inr err, service)
  end.

Definition dryRun (text : string) (service : t) : (option error + error) * t :=
  match find text service with
  | Rows _ => (inl None, service)
  | Rejected err => (inl (Some err), service)
  | Fails err => (inr err, service)
  end.

#[global] Instance client : QueryClient t Z := {|
  Query_Read := read;
  Query_DryRun := dryRun;
|}.

End Canned.

(** ** Query results the examples run on *)
Module QueryFixtures.

(** Two rows of two values, with and without a schema, and an iterator
    that answers one row and then an error. *)
Definition idName : list FieldSchema.t :=
  [ {| FieldSchema.Name := "id"; FieldSchema.Description := ""; FieldSchema.Type_ := "INTEGER" |};
    {| FieldSchema.Name := "n"; FieldSchema.Description := ""; FieldSchema.Type_ := "NUMERIC" |} ].
Definition twoRows : RowIterator.t Z := RowIterator.mk (Some idName) [inl [1; 10]; inl [2; 20]].
Definition noSchema : RowIterator.t Z := RowIterator.mk None [inl [1; 10]; inl [2; 20]].
Definition quotaError : error :=
  googleapiError {| Code := 403; Message := "Quota exceeded"; Body := "{}" |}.
Definition broken : RowIterator.t Z := RowIterator.mk (Some idName) [inl [1; 10]; inr quotaError].
Definition service : Canned.t :=
  [ ("SELECT 1", Canned.Rows (RowIterator.mk (Some []) [inl [1]]));
    ("SELECT id, n FROM t", Canned.Rows twoRows);
    ("SELECT id, n FROM u", Canned.Rows noSchema);
    ("SELECT id, n FROM v", Canned.Rows broken);
    ("SELECT x FROM t", Canned.Rejected Canned.invalidQuery);
    ("SELECT * FROM missing",
     Canned.Fails (googleapiError {| Code := 404; Message := "Not found: Table missing";
                                     Body := "{}" |})) ].

End QueryFixtures.

(** ** What the provisioner and the reconciler work on *)

(** The project and the dataset [CreateDataSetIfNotExist] reads off a
    table name: its switch on the number of components. *)
Definition datasetOf (config : Config.t) (tableName : string) : option (string * string) :=
  match strings.Split tableName "." with
  | [c0; c1] => Some (Config.ProjectID config, c0)
  | [c0; c1; c2] => Some (c0, c1)
  | _ => None
  end.

(** The key of a dataset in [datasetNameCache] and [datasetLocks]. *)
Definition cacheKey (dataset : string * string) : string :=
  dataset.1 ++ "." ++ dataset.2.

(** The last column of the given name, the one [colsByName] keeps. *)
Definition columnNamed (name : string) (cols : list Column.t) : option Column.t :=
  last (filter (fun col => Column.Name col = name) cols).

(** The field with the description of the column of its name, if there is
    one. *)
Definition described (cols : list Column.t) (field : FieldSchema.t) : FieldSchema.t :=
  match columnNamed (FieldSchema.Name field) cols with
  | Some col =>
      {| FieldSchema.Name := FieldSchema.Name field;
         FieldSchema.Description := Column.Description col;
         FieldSchema.Type_ := FieldSchema.Type_ field |}
  | None => field
  end.

(** The update to push for an asset onto a live table, said at once: the
    asset's description unless empty; the live schema with every field
    [described], if some field has a column of its name; the primary key
    of the asset's primary-key columns, if there are any. *)
Definition pushedUpdate (asset : Asset.t) (meta : TableMetadata.t) : TableMetadataToUpdate.t :=
  let cols := Asset.Columns asset in
  {| TableMetadataToUpdate.Description :=
       if decide (Asset.Description asset = "") then None
       else Some (Asset.Description asset);
     TableMetadataToUpdate.Schema :=
       if existsb (fun field => bool_decide (is_Some (columnNamed (FieldSchema.Name field) cols)))
                  (TableMetadata.Schema meta)
       then Some (map (described cols) (TableMetadata.Schema meta))
       else None;
     TableMetadataToUpdate.TableConstraints :=
       match Asset.ColumnNamesWithPrimaryKey asset with
       | [] => None
       | primaryKeys =>
           Some {| TableConstraints.PrimaryKey :=
                     Some {| PrimaryKey.Columns := primaryKeys |} |}
       end |}.

(** The guard of [IsPartitioningOrClusteringMismatch]. *)
Definition partitionedOrDeclared (meta : TableMetadata.t) (asset : Asset.t) : Prop :=
  TableMetadata.TimePartitioning meta <> None
  \/ TableMetadata.RangePartitioning meta <> None
  \/ Materialization.PartitionBy (Asset.Materialization asset) <> ""
  \/ Materialization.ClusterBy (Asset.Materialization asset) <> [].

(** * Properties *)

(** ** [strings.Split] *)

Lemma Split_not_nil s sep : strings.Split s sep <> [].
Proof.
  destruct s as [|c rest]; simpl; [discriminate|].
  destruct (Ascii.eqb c sep); [discriminate|].
  destruct (strings.Split rest sep); discriminate.
Qed.

(** Joining the segments with the separator gives the string back. *)
Lemma Join_Split s sep : strings.Join (strings.Split s sep) sep = s.
Proof.
  induction s as [|c rest IH]; simpl; [reflexivity|].
  destruct (Ascii.eqb_spec c sep) as [->|Hne].
  - pose proof (Split_not_nil rest sep) as Hnil.
    destruct (strings.Split rest sep) as [|seg segs]; [contradiction|].
    rewrite <- IH. reflexivity.
  - pose proof (Split_not_nil rest sep) as Hnil.
    destruct (strings.Split rest sep) as [|seg segs]; [contradiction|].
    rewrite <- IH. destruct segs; reflexivity.
Qed.

(** No segment holds the separator. *)
Lemma Split_no_sep s sep :
  Forall (fun seg => strings.ContainsByte seg sep = false) (strings.Split s sep).
Proof.
  induction s as [|c rest IH]; simpl.
  - constructor; [reflexivity|constructor].
  - destruct (Ascii.eqb c sep) eqn:Hc.
    + constructor; [reflexivity|exact IH].
    + destruct (strings.Split rest sep) as [|seg segs].
      * constructor; [simpl; now rewrite Hc|constructor].
      * inversion IH as [|? ? Hseg Hsegs]; subst.
        constructor; [simpl; now rewrite Hc, Hseg|exact Hsegs].
Qed.

(** Segments free of the separator are what [Split] finds in their
    join. *)
Lemma Split_Join segs sep :
  segs <> [] ->
  Forall (fun seg => strings.ContainsByte seg sep = false) segs ->
  strings.Split (strings.Join segs sep) sep = segs.
Proof.
  induction segs as [|seg rest IH]; [contradiction|]. intros _ Hall.
  inversion Hall as [|? ? Hseg Hrest]; subst.
  destruct rest as [|seg' rest'].
  - simpl. clear IH Hall Hrest.
    induction seg as [|c s IHs]; simpl; [reflexivity|].
    simpl in Hseg. apply orb_false_iff in Hseg as [Hc Hs].
    rewrite Hc, (IHs Hs). reflexivity.
  - specialize (IH ltac:(discriminate) Hrest).
    change (strings.Join (seg :: seg' :: rest') sep)
      with (seg ++ String sep (strings.Join (seg' :: rest') sep)).
    clear Hall. set (j := strings.Join (seg' :: rest') sep) in *.
    clearbody j. induction seg as [|c s IHs]; simpl.
    + rewrite Ascii.eqb_refl. now rewrite IH.
    + simpl in Hseg. apply orb_false_iff in Hseg as [Hc Hs].
      rewrite Hc, (IHs Hs). reflexivity.
Qed.

Lemma anyEmpty_false segs :
  anyEmpty segs = false <-> Forall (fun seg => seg <> "") segs.
Proof.
  induction segs as [|seg rest IH]; simpl.
  - split; [constructor|reflexivity].
  - destruct (String.eqb_spec seg "") as [->|Hne].
    + split; [discriminate|]. intros H; inversion H; congruence.
    + rewrite IH. split; [now constructor|]. intros H; now inversion H.
Qed.

(** ** Qualified names *)

(** C4. Name resolution is a function of the configuration and the name;
    it succeeds exactly when splitting the name on "." yields 2 or 3
    segments, none empty. Two segments resolve to the configured home
    project, the first segment as dataset and the second as table; three
    segments to project, dataset and table in that order; every other name
    fails with the malformed-name error. *)
Theorem getTableRef_spec (config : Config.t) (tableName : string) :
  let segs := strings.Split tableName "." in
  (wellFormedSegments segs <-> exists tableRef, getTableRef config tableName = inl tableRef)
  /\ (forall ds tb, segs = [ds; tb] -> ds <> "" -> tb <> "" ->
        getTableRef config tableName
        = inl {| Table.ProjectID := Config.ProjectID config;
                 Table.DatasetID := ds; Table.TableID := tb |})
  /\ (forall pr ds tb, segs = [pr; ds; tb] -> pr <> "" -> ds <> "" -> tb <> "" ->
        getTableRef config tableName
        = inl {| Table.ProjectID := pr; Table.DatasetID := ds; Table.TableID := tb |})
  /\ (~ wellFormedSegments segs ->
        getTableRef config tableName = inr (malformedName tableName)).
Proof.
  cbv zeta. unfold getTableRef, wellFormedSegments.
  destruct (anyEmpty (strings.Split tableName ".")) eqn:Hempty.
  - assert (Hnot : ~ Forall (fun seg => seg <> "") (strings.Split tableName ".")).
    { intros H. apply anyEmpty_false in H. congruence. }
    split; [split|split; [|split]].
    + intros [_ H]. contradiction.
    + intros [t Ht]. discriminate.
    + intros ds tb E Hds Htb. exfalso. apply Hnot. rewrite E.
      repeat constructor; assumption.
    + intros pr ds tb E Hpr Hds Htb. exfalso. apply Hnot. rewrite E.
      repeat constructor; assumption.
    + reflexivity.
  - apply anyEmpty_false in Hempty.
    destruct (strings.Split tableName ".") as [|c0 [|c1 [|c2 [|c3 more]]]]; simpl.
    all: split; [split|split; [|split]].
    all: try (intros [[?|?] _]; discriminate).
    all: try (intros [? ?]; discriminate).
    all: try (intros; discriminate).
    all: try (intros; eexists; reflexivity).
    all: try (intros _; reflexivity).
    + intros _. split; [left; reflexivity|assumption].
    + intros ds tb [= -> ->] _ _. reflexivity.
    + intros H. exfalso. apply H. split; [left; reflexivity|assumption].
    + intros _. split; [right; reflexivity|assumption].
    + intros pr ds tb [= -> -> ->] _ _ _. reflexivity.
    + intros H. exfalso. apply H. split; [right; reflexivity|assumption].
Qed.

(** A dataset and a table name without dots resolve in the home project. *)
Lemma getTableRef_dataset_table config ds tb :
  ds <> "" -> tb <> "" ->
  strings.ContainsByte ds "." = false -> strings.ContainsByte tb "." = false ->
  getTableRef config (ds ++ "." ++ tb)
  = inl {| Table.ProjectID := Config.ProjectID config;
           Table.DatasetID := ds; Table.TableID := tb |}.
Proof.
  intros Hds Htb Hd Ht. unfold getTableRef.
  change (ds ++ "." ++ tb) with (strings.Join [ds; tb] ".").
  rewrite Split_Join; [|discriminate|repeat constructor; assumption].
  simpl. destruct (String.eqb_spec ds "") as [|_]; [contradiction|].
  destruct (String.eqb_spec tb "") as [|_]; [contradiction|]. reflexivity.
Qed.

Example getTableRef_two :
  getTableRef {| Config.ProjectID := "home" |} "ds.events"
  = inl {| Table.ProjectID := "home"; Table.DatasetID := "ds"; Table.TableID := "events" |}.
Proof. reflexivity. Qed.

Example getTableRef_three :
  getTableRef {| Config.ProjectID := "home" |} "proj.ds.events"
  = inl {| Table.ProjectID := "proj"; Table.DatasetID := "ds"; Table.TableID := "events" |}.
Proof. reflexivity. Qed.

Example getTableRef_one :
  getTableRef {| Config.ProjectID := "home" |} "events" = inr (malformedName "events").
Proof. reflexivity. Qed.

Example getTableRef_four :
  getTableRef {| Config.ProjectID := "home" |} "a.b.c.d" = inr (malformedName "a.b.c.d").
Proof. reflexivity. Qed.

Example getTableRef_empty_segment :
  getTableRef {| Config.ProjectID := "home" |} ".ds.events" = inr (malformedName ".ds.events").
Proof. reflexivity. Qed.

Example BuildTableExistsQuery_text :
  BuildTableExistsQuery {| Config.ProjectID := "home" |} "ds.events"
  = inl "SELECT EXISTS (SELECT 1 FROM home.ds.INFORMATION_SCHEMA.TABLES WHERE table_name = 'events')".
Proof. reflexivity. Qed.

(** ** Error translation *)

Lemma As_wrapError msg err : errors.As (wrapError msg err) = errors.As err.
Proof. reflexivity. Qed.

(** C9, as the code has it. An error whose chain holds an API error with
    status 404 or 400 becomes a bare error with that error's message text;
    an error whose chain holds no API error is returned as it is; any
    other error is returned as the first API error of its chain, which is
    the input itself when the input is that API error. *)
Theorem formatError_spec (err : error) :
  (forall g, errors.As err = Some g -> Code g = 404 \/ Code g = 400 ->
     formatError err = errorString (Message g))
  /\ (errors.As err = None -> formatError err = err)
  /\ (forall g, errors.As err = Some g -> Code g <> 404 -> Code g <> 400 ->
        formatError err = googleapiError g)
  /\ (forall g, err = googleapiError g -> Code g <> 404 -> Code g <> 400 ->
        formatError err = err).
Proof.
  unfold formatError. split; [|split; [|split]].
  - intros g -> [Hc|Hc]; rewrite Hc; reflexivity.
  - intros ->. reflexivity.
  - intros g -> H404 H400.
    apply Z.eqb_neq in H404, H400. now rewrite H404, H400.
  - intros g -> H404 H400. simpl.
    apply Z.eqb_neq in H404, H400. now rewrite H404, H400.
Qed.

(** C9, as stated, fails: an API error with status 500 wrapped in another
    error is neither a 404 nor a 400, yet what is returned is the API
    error inside, not the input. *)
Lemma formatError_unwraps :
  formatError (wrapError "failed to read" (googleapiError Fixtures.serverError))
  = googleapiError Fixtures.serverError
  /\ formatError (wrapError "failed to read" (googleapiError Fixtures.serverError))
     <> wrapError "failed to read" (googleapiError Fixtures.serverError).
Proof. split; [reflexivity|discriminate]. Qed.

Example formatError_not_found :
  formatError (googleapiError {| Code := 404; Message := "Not found: Table t"; Body := "{}" |})
  = errorString "Not found: Table t".
Proof. reflexivity. Qed.

Example formatError_wrapped_bad_request :
  formatError (wrapError "ctx" (googleapiError {| Code := 400; Message := "Syntax error"; Body := "{}" |}))
  = errorString "Syntax error".
Proof. reflexivity. Qed.

Example formatError_plain :
  formatError (errorString "connection reset") = errorString "connection reset".
Proof. reflexivity. Qed.

(** ** Drift detection *)

(** C5. A partition column declared against a live table with neither
    time- nor range-partitioning is a mismatch; none declared against such
    a table is a match; and when the live table has time-partitioning or
    range-partitioning, the result is a match exactly when the field of
    each one present equals the partition column. *)
Theorem IsSamePartitioning_spec (meta : TableMetadata.t) (asset : Asset.t) :
  let partitionBy := Materialization.PartitionBy (Asset.Materialization asset) in
  let tp := TableMetadata.TimePartitioning meta in
  let rp := TableMetadata.RangePartitioning meta in
  (partitionBy <> "" -> tp = None -> rp = None -> IsSamePartitioning meta asset = false)
  /\ (partitionBy = "" -> tp = None -> rp = None -> IsSamePartitioning meta asset = true)
  /\ (forall p, tp = Some p -> IsSamePartitioning meta asset = true ->
        TimePartitioning.Field p = partitionBy)
  /\ (forall p, rp = Some p -> IsSamePartitioning meta asset = true ->
        RangePartitioning.Field p = partitionBy)
  /\ (tp <> None \/ rp <> None ->
      (IsSamePartitioning meta asset = true <->
       (forall p, tp = Some p -> TimePartitioning.Field p = partitionBy)
       /\ (forall p, rp = Some p -> RangePartitioning.Field p = partitionBy))).
Proof.
  cbv zeta. unfold IsSamePartitioning.
  destruct (TableMetadata.TimePartitioning meta) as [t|];
    destruct (TableMetadata.RangePartitioning meta) as [r|]; simpl;
    rewrite ?andb_false_r; simpl.
  - destruct (String.eqb_spec (TimePartitioning.Field t)
                (Materialization.PartitionBy (Asset.Materialization asset))) as [Et|Et];
      destruct (String.eqb_spec (RangePartitioning.Field r)
                  (Materialization.PartitionBy (Asset.Materialization asset))) as [Er|Er];
      simpl; (split; [|split; [|split; [|split]]]); try discriminate;
      try (intros p [= <-] H; congruence).
    + intros _. split; [intros _|reflexivity]. split; intros p [= <-]; assumption.
    + intros _. split; [discriminate|]. intros [_ H]. elim Er. now apply H.
    + intros _. split; [discriminate|]. intros [H _]. elim Et. now apply H.
    + intros _. split; [discriminate|]. intros [H _]. elim Et. now apply H.
  - destruct (String.eqb_spec (TimePartitioning.Field t)
                (Materialization.PartitionBy (Asset.Materialization asset))) as [Et|Et];
      simpl; (split; [|split; [|split; [|split]]]); try discriminate;
      try (intros p [= <-] H; congruence).
    + intros _. split; [intros _|reflexivity]. split; [intros p [= <-]; assumption|discriminate].
    + intros _. split; [discriminate|]. intros [H _]. elim Et. now apply H.
  - destruct (String.eqb_spec (RangePartitioning.Field r)
                (Materialization.PartitionBy (Asset.Materialization asset))) as [Er|Er];
      simpl; (split; [|split; [|split; [|split]]]); try discriminate;
      try (intros p [= <-] H; congruence).
    + intros _. split; [intros _|reflexivity]. split; [discriminate|intros p [= <-]; assumption].
    + intros _. split; [discriminate|]. intros [_ H]. elim Er. now apply H.
  - destruct (String.eqb_spec (Materialization.PartitionBy (Asset.Materialization asset)) "")
      as [Hpb|Hpb]; simpl; (split; [|split; [|split; [|split]]]); try discriminate;
      try (intros; congruence); try reflexivity.
    all: intros [H|H]; congruence.
Qed.

Lemma sameFields_eq bs us :
  length bs = length us -> (sameFields bs us = true <-> bs = us).
Proof.
  revert us. induction bs as [|b bs IH]; intros [|u us] Hlen; simpl in *;
    try discriminate.
  - split; reflexivity.
  - injection Hlen as Hlen. destruct (String.eqb_spec b u) as [->|Hne].
    + rewrite (IH us Hlen). split; [intros ->; reflexivity|intros [= ->]; reflexivity].
    + split; [discriminate|intros [= ? ?]; contradiction].
Qed.

(** With live clustering present, the result is a match exactly when the
    two field lists are equal. *)
Lemma IsSameClustering_live meta asset c :
  TableMetadata.Clustering meta = Some c ->
  (IsSameClustering meta asset = true
   <-> Clustering.Fields c = Materialization.ClusterBy (Asset.Materialization asset)).
Proof.
  intros Hc. unfold IsSameClustering. rewrite Hc.
  set (us := Materialization.ClusterBy (Asset.Materialization asset)).
  set (bs := Clustering.Fields c).
  destruct (Nat.eqb_spec (length bs) (length us)) as [Hlen|Hlen]; simpl.
  - destruct us as [|u us], bs as [|b bs]; simpl in *; try discriminate.
    + split; reflexivity.
    + apply (sameFields_eq (b :: bs) (u :: us) Hlen).
  - assert (Hne : bs <> us) by (intros E; apply Hlen; now rewrite E).
    destruct ((0 <? length us)%nat && (length bs =? 0)%nat);
      split; try discriminate; intros; contradiction.
Qed.

(** C6. Cluster columns declared against absent or empty live clustering
    are a mismatch; none declared against absent live clustering is a
    match; otherwise the two field lists are compared for equal length and
    equal fields position by position, so the same fields in another order
    are a mismatch. *)
Theorem IsSameClustering_spec (meta : TableMetadata.t) (asset : Asset.t) :
  let userFields := Materialization.ClusterBy (Asset.Materialization asset) in
  let liveClustering := TableMetadata.Clustering meta in
  (userFields <> [] ->
   liveClustering = None \/ (exists c, liveClustering = Some c /\ Clustering.Fields c = []) ->
   IsSameClustering meta asset = false)
  /\ (userFields = [] -> liveClustering = None -> IsSameClustering meta asset = true)
  /\ (forall c, liveClustering = Some c ->
        (IsSameClustering meta asset = true <->
         length (Clustering.Fields c) = length userFields
         /\ forall i : nat, Clustering.Fields c !! i = userFields !! i))
  /\ (forall c, liveClustering = Some c ->
        Clustering.Fields c = ["a"; "b"] -> userFields = ["b"; "a"] ->
        IsSameClustering meta asset = false).
Proof.
  cbv zeta. split; [|split; [|split]].
  - intros Hus Hlive. unfold IsSameClustering.
    destruct (Materialization.ClusterBy (Asset.Materialization asset)) as [|u us];
      [contradiction|].
    destruct Hlive as [->|(c & -> & ->)]; reflexivity.
  - intros Hus Hlive. unfold IsSameClustering. rewrite Hus, Hlive. reflexivity.
  - intros c Hc. rewrite (IsSameClustering_live meta asset c Hc). split.
    + intros ->. split; [reflexivity|intros i; reflexivity].
    + intros [_ H]. apply list_eq. exact H.
  - intros c Hc Hbs Hus.
    destruct (IsSameClustering meta asset) eqn:E; [|reflexivity].
    apply (IsSameClustering_live meta asset c Hc) in E. congruence.
Qed.

(** The aggregate runs the two predicates when the live table is
    partitioned or the asset declares a partition column or cluster
    columns. *)
Lemma IsPartitioningOrClusteringMismatch_checked meta asset :
  TableMetadata.TimePartitioning meta <> None
  \/ TableMetadata.RangePartitioning meta <> None
  \/ Materialization.PartitionBy (Asset.Materialization asset) <> ""
  \/ Materialization.ClusterBy (Asset.Materialization asset) <> [] ->
  IsPartitioningOrClusteringMismatch meta asset
  = negb (IsSamePartitioning meta asset) || negb (IsSameClustering meta asset).
Proof.
  unfold IsPartitioningOrClusteringMismatch. intros H.
  destruct (TableMetadata.TimePartitioning meta) as [t|] eqn:Et; simpl.
  { now destruct (negb _ || negb _). }
  destruct (TableMetadata.RangePartitioning meta) as [r|] eqn:Er; simpl.
  { now destruct (negb _ || negb _). }
  destruct (String.eqb_spec (Materialization.PartitionBy (Asset.Materialization asset)) "")
    as [Hpb|Hpb]; simpl.
  2: { now destruct (negb _ || negb _). }
  destruct (Materialization.ClusterBy (Asset.Materialization asset)) as [|u us] eqn:Eu; simpl.
  2: { now destruct (negb _ || negb _). }
  destruct H as [H|[H|[H|H]]]; congruence.
Qed.

(** It is skipped, and no mismatch reported, when the live table is not
    partitioned and the asset declares nothing: the live clustering is not
    looked at. *)
Lemma IsPartitioningOrClusteringMismatch_skipped meta asset :
  TableMetadata.TimePartitioning meta = None ->
  TableMetadata.RangePartitioning meta = None ->
  Materialization.PartitionBy (Asset.Materialization asset) = "" ->
  Materialization.ClusterBy (Asset.Materialization asset) = [] ->
  IsPartitioningOrClusteringMismatch meta asset = false.
Proof.
  unfold IsPartitioningOrClusteringMismatch. intros -> -> -> ->. reflexivity.
Qed.

(** C2, on the code: for a live table clustered by one field and an asset
    that declares no partition column and no cluster columns,
    [IsSameClustering] reports a mismatch, but the aggregate skips both
    predicates and reports none. *)
Theorem IsPartitioningOrClusteringMismatch_live_clustering_unseen :
  IsSameClustering Fixtures.clusteredLive Fixtures.plainAsset = false
  /\ IsPartitioningOrClusteringMismatch Fixtures.clusteredLive Fixtures.plainAsset = false.
Proof. split; reflexivity. Qed.

Example IsSamePartitioning_dt :
  IsSamePartitioning (Fixtures.live "TABLE" (Some "dt") None None None)
                     (Fixtures.asset "ds.t" "" [] "table" "dt" []) = true
  /\ IsSamePartitioning (Fixtures.live "TABLE" (Some "other") None None None)
                        (Fixtures.asset "ds.t" "" [] "table" "dt" []) = false
  /\ IsSamePartitioning (Fixtures.live "TABLE" None None None None)
                        (Fixtures.asset "ds.t" "" [] "table" "" []) = true.
Proof. repeat split. Qed.

Example IsSameClustering_ab :
  IsSameClustering (Fixtures.live "TABLE" None None (Some ["a"; "b"]) None)
                   (Fixtures.asset "ds.t" "" [] "table" "" ["a"; "b"]) = true
  /\ IsSameClustering (Fixtures.live "TABLE" None None (Some ["b"; "a"]) None)
                      (Fixtures.asset "ds.t" "" [] "table" "" ["a"; "b"]) = false
  /\ IsSameClustering (Fixtures.live "TABLE" None None (Some []) None)
                      (Fixtures.asset "ds.t" "" [] "table" "" ["a"; "b"]) = false
  /\ IsSameClustering (Fixtures.live "TABLE" None None None None)
                      (Fixtures.asset "ds.t" "" [] "table" "" ["a"; "b"]) = false.
Proof. repeat split. Qed.

(** ** Operations on the warehouse *)

Lemma deleteCalls_app cs cs' :
  deleteCalls (cs ++ cs') = (deleteCalls cs + deleteCalls cs')%nat.
Proof.
  induction cs as [|c cs IH]; simpl; [reflexivity|].
  destruct c; simpl; rewrite IH; reflexivity.
Qed.

(** Unfolds the sequencing of the process monad. *)
Ltac unfold_M := unfold mbind, M_bind, mret, M_ret, network, cacheLoad, cacheStore, lockDataset.

Section ClientProperties.
Context {W : Type} `{!Warehouse W}.
Variable MaterializationTypeNone : string.
Variable config : Config.t.

(** C1. For a table name that resolves: when the metadata fetch reports
    the table not found, the result is success and no delete is issued;
    when the fetched metadata mismatches the asset (by type, or by the
    partitioning and clustering aggregate), exactly one delete is issued,
    and the result is success when the delete succeeds and the wrapped
    failure when it fails; when nothing mismatches, the result is success
    and nothing but the fetch has happened. *)
Theorem DropTableOnMismatch_spec (tableName : string) (asset : Asset.t)
        (p : Process W) (tableRef : Table.t) :
  getTableRef config tableName = inl tableRef ->
  let fetched := Table_Metadata tableRef (warehouse p) in
  let after w cs := mkProcess w (datasetNameCache p) (datasetLocks p) (calls p ++ cs) in
  let mismatch meta :=
    IsMaterializationTypeMismatch MaterializationTypeNone meta asset
    || IsPartitioningOrClusteringMismatch meta asset in
  let run := DropTableOnMismatch MaterializationTypeNone config tableName asset p in
  (forall err, fetched.1 = inr err -> isNotFound err = true ->
     run = (None, after fetched.2 [TableMetadataCall tableRef])
     /\ deleteCalls (calls run.2) = deleteCalls (calls p))
  /\ (forall meta, fetched.1 = inl meta -> mismatch meta = true ->
        let deleted := Table_Delete tableRef fetched.2 in
        run = (match deleted.1 with
               | None => None
               | Some err => Some (wrapError ("failed to delete table '" ++ tableName ++ "'") err)
               end,
               after deleted.2 [TableMetadataCall tableRef; TableDeleteCall tableRef])
        /\ deleteCalls (calls run.2) = S (deleteCalls (calls p)))
  /\ (forall meta, fetched.1 = inl meta -> mismatch meta = false ->
        run = (None, after fetched.2 [TableMetadataCall tableRef])
        /\ deleteCalls (calls run.2) = deleteCalls (calls p)).
Proof.
  intros Href. cbv zeta. unfold DropTableOnMismatch. rewrite Href. unfold_M.
  destruct (Table_Metadata tableRef (warehouse p)) as [res w1]. simpl.
  split; [|split].
  - intros err -> Hnf. rewrite Hnf. simpl. split; [reflexivity|].
    rewrite deleteCalls_app. simpl. lia.
  - intros meta -> Hmis. rewrite Hmis. simpl.
    destruct (Table_Delete tableRef w1) as [[err|] w2]; simpl;
      rewrite <- app_assoc; simpl; (split; [reflexivity|]);
      rewrite deleteCalls_app; simpl; lia.
  - intros meta -> Hmis. rewrite Hmis. simpl. split; [reflexivity|].
    rewrite deleteCalls_app. simpl. lia.
Qed.

(** A fetch failure other than not-found is returned wrapped, and a name
    that does not resolve fails before any call. *)
Lemma DropTableOnMismatch_fetch_failed tableName asset (p : Process W) tableRef err w1 :
  getTableRef config tableName = inl tableRef ->
  Table_Metadata tableRef (warehouse p) = (inr err, w1) ->
  isNotFound err = false ->
  DropTableOnMismatch MaterializationTypeNone config tableName asset p
  = (Some (wrapError ("failed to fetch metadata for table '" ++ tableName ++ "'") err),
     mkProcess w1 (datasetNameCache p) (datasetLocks p) (calls p ++ [TableMetadataCall tableRef])).
Proof.
  intros Href Hf Hnf. unfold DropTableOnMismatch. rewrite Href. unfold_M.
  rewrite Hf, Hnf. reflexivity.
Qed.

Lemma DropTableOnMismatch_malformed tableName asset (p : Process W) err :
  getTableRef config tableName = inr err ->
  DropTableOnMismatch MaterializationTypeNone config tableName asset p = (Some err, p).
Proof. intros Href. unfold DropTableOnMismatch. now rewrite Href. Qed.

(** *** The dataset provisioner *)

Lemma provision_cached tableName projectID datasetName (p : Process W) :
  is_Some (datasetNameCache p !! (projectID ++ "." ++ datasetName)) ->
  provision tableName projectID datasetName p = (None, p).
Proof.
  intros Hhit. unfold provision. unfold_M.
  rewrite bool_decide_eq_true_2 by assumption. reflexivity.
Qed.

(** A probe that finds the dataset ends the call: the cache is as it
    was. *)
Lemma provision_probe_found tableName projectID datasetName (p : Process W) w1 :
  datasetNameCache p !! (projectID ++ "." ++ datasetName) = None ->
  Dataset_Metadata projectID datasetName (warehouse p) = (None, w1) ->
  provision tableName projectID datasetName p
  = (None, mkProcess w1 (datasetNameCache p)
                     ({[projectID ++ "." ++ datasetName]} ∪ datasetLocks p)
                     (calls p ++ [DatasetMetadataCall projectID datasetName])).
Proof.
  intros Hmiss Hprobe. unfold provision. unfold_M. simpl.
  do 2 (rewrite bool_decide_eq_false_2 by (rewrite Hmiss; apply is_Some_None); simpl).
  rewrite Hprobe. reflexivity.
Qed.

(** A creation that succeeds is recorded in the cache. *)
Lemma provision_created tableName projectID datasetName (p : Process W) err w1 w2 :
  datasetNameCache p !! (projectID ++ "." ++ datasetName) = None ->
  Dataset_Metadata projectID datasetName (warehouse p) = (Some err, w1) ->
  isNotFound err = true ->
  Dataset_Create projectID datasetName w1 = (None, w2) ->
  provision tableName projectID datasetName p
  = (None, mkProcess w2 (<[projectID ++ "." ++ datasetName := true]> (datasetNameCache p))
                     ({[projectID ++ "." ++ datasetName]} ∪ datasetLocks p)
                     (calls p ++ [DatasetMetadataCall projectID datasetName;
                                  DatasetCreateCall projectID datasetName])).
Proof.
  intros Hmiss Hprobe Hnf Hcreate. unfold provision. unfold_M. simpl.
  do 2 (rewrite bool_decide_eq_false_2 by (rewrite Hmiss; apply is_Some_None); simpl).
  rewrite Hprobe, Hnf. simpl. rewrite Hcreate. simpl.
  rewrite <- app_assoc. reflexivity.
Qed.

(** On a cache miss the first call is the probe of the dataset, whatever
    the project and dataset strings are, and the result is success or a
    wrapped client error. *)
Lemma provision_probes tableName projectID datasetName (p : Process W) :
  datasetNameCache p !! (projectID ++ "." ++ datasetName) = None ->
  exists r p' more,
    provision tableName projectID datasetName p = (r, p')
    /\ calls p' = (calls p ++ DatasetMetadataCall projectID datasetName :: more)%list
    /\ (r = None \/ exists msg err, r = Some (wrapError msg err)).
Proof.
  intros Hmiss. unfold provision. unfold_M. simpl.
  do 2 (rewrite bool_decide_eq_false_2 by (rewrite Hmiss; apply is_Some_None); simpl).
  destruct (Dataset_Metadata projectID datasetName (warehouse p)) as [[err|] w1]; simpl.
  - destruct (isNotFound err); simpl.
    + destruct (Dataset_Create projectID datasetName w1) as [[err'|] w2]; simpl.
      * do 3 eexists. split; [reflexivity|]. rewrite <- app_assoc. simpl.
        split; [reflexivity|]. right. eauto.
      * do 3 eexists. split; [reflexivity|]. rewrite <- app_assoc. simpl.
        split; [reflexivity|]. now left.
    + do 3 eexists. split; [reflexivity|]. split; [reflexivity|]. right. eauto.
  - do 3 eexists. split; [reflexivity|]. split; [reflexivity|]. now left.
Qed.

(** On a cache miss, what the body below the switch does, in full. *)
Lemma provision_missed tableName projectID datasetName (p : Process W) :
  datasetNameCache p !! (projectID ++ "." ++ datasetName) = None ->
  provision tableName projectID datasetName p
  = let key := projectID ++ "." ++ datasetName in
    let probe := DatasetMetadataCall projectID datasetName in
    let create := DatasetCreateCall projectID datasetName in
    let probed := Dataset_Metadata projectID datasetName (warehouse p) in
    match probed.1 with
    | None =>
        (None, mkProcess probed.2 (datasetNameCache p) ({[key]} ∪ datasetLocks p)
                         (calls p ++ [probe]))
    | Some err =>
        if isNotFound err then
          let created := Dataset_Create projectID datasetName probed.2 in
          match created.1 with
          | None =>
              (None, mkProcess created.2 (<[key := true]> (datasetNameCache p))
                               ({[key]} ∪ datasetLocks p) (calls p ++ [probe; create]))
          | Some err' =>
              (Some (wrapError ("failed to create dataset '" ++ datasetName ++ "'") err'),
               mkProcess created.2 (datasetNameCache p)
                         ({[key]} ∪ datasetLocks p) (calls p ++ [probe; create]))
          end
        else
          (Some (wrapError ("failed to fetch metadata for table '" ++ tableName ++ "'") err),
           mkProcess probed.2 (datasetNameCache p) ({[key]} ∪ datasetLocks p)
                     (calls p ++ [probe]))
    end.
Proof.
  intros Hmiss. cbv zeta. unfold provision. unfold_M. simpl.
  do 2 (rewrite bool_decide_eq_false_2 by (rewrite Hmiss; apply is_Some_None); simpl).
  destruct (Dataset_Metadata projectID datasetName (warehouse p)) as [[err|] w1]; simpl;
    [|reflexivity].
  destruct (isNotFound err); simpl; [|reflexivity].
  destruct (Dataset_Create projectID datasetName w1) as [[err'|] w2]; simpl;
    rewrite <- app_assoc; reflexivity.
Qed.

(** C10, as the code has it. A name of 2 or 3 components is provisioned
    whatever the components are, empty ones included: the project and the
    dataset are read off the components (the home project for 2
    components) and the cache key is built from them. When the key is
    cached the call is success and nothing happens. Otherwise the dataset
    of those strings is probed; found, the call is success; not found, it
    is created, and on success the key is cached; a failure of the probe
    or of the creation is returned wrapped. The result is never the
    malformed-name error, whereas [getTableRef] and
    [BuildTableExistsQuery] reject the name when a component is empty. *)
Theorem CreateDataSetIfNotExist_unvalidated (asset : Asset.t) (p : Process W)
        (c0 c1 : string) (rest : list string) :
  strings.Split (Asset.Name asset) "." = c0 :: c1 :: rest ->
  (length rest <= 1)%nat ->
  let tableName := Asset.Name asset in
  let projectID := match rest with [] => Config.ProjectID config | _ => c0 end in
  let datasetName := match rest with [] => c0 | _ => c1 end in
  let key := projectID ++ "." ++ datasetName in
  let probe := DatasetMetadataCall projectID datasetName in
  let create := DatasetCreateCall projectID datasetName in
  let probed := Dataset_Metadata projectID datasetName (warehouse p) in
  let run := CreateDataSetIfNotExist config asset p in
  (is_Some (datasetNameCache p !! key) -> run = (None, p))
  /\ (datasetNameCache p !! key = None ->
      run = match probed.1 with
            | None =>
                (None, mkProcess probed.2 (datasetNameCache p) ({[key]} ∪ datasetLocks p)
                                 (calls p ++ [probe]))
            | Some err =>
                if isNotFound err then
                  let created := Dataset_Create projectID datasetName probed.2 in
                  match created.1 with
                  | None =>
                      (None, mkProcess created.2 (<[key := true]> (datasetNameCache p))
                                       ({[key]} ∪ datasetLocks p)
                                       (calls p ++ [probe; create]))
                  | Some err' =>
                      (Some (wrapError ("failed to create dataset '" ++ datasetName ++ "'")
                                       err'),
                       mkProcess created.2 (datasetNameCache p)
                                 ({[key]} ∪ datasetLocks p) (calls p ++ [probe; create]))
                  end
                else
                  (Some (wrapError ("failed to fetch metadata for table '"
                                    ++ tableName ++ "'") err),
                   mkProcess probed.2 (datasetNameCache p) ({[key]} ∪ datasetLocks p)
                             (calls p ++ [probe]))
            end)
  /\ run.1 <> Some (malformedName tableName)
  /\ (anyEmpty (c0 :: c1 :: rest) = true ->
      getTableRef config tableName = inr (malformedName tableName)
      /\ BuildTableExistsQuery config tableName = inr (malformedName tableName)).
Proof.
  intros Hsplit Hlen. cbv zeta.
  assert (Hrun : CreateDataSetIfNotExist config asset p
                 = provision (Asset.Name asset)
                     (match rest with [] => Config.ProjectID config | _ => c0 end)
                     (match rest with [] => c0 | _ => c1 end) p).
  { unfold CreateDataSetIfNotExist. rewrite Hsplit.
    destruct rest as [|c2 [|c3 rest]]; [reflexivity|reflexivity|simpl in Hlen; lia]. }
  rewrite Hrun. split; [|split; [|split]].
  - apply provision_cached.
  - intros Hmiss. exact (provision_missed _ _ _ p Hmiss).
  - destruct (datasetNameCache p
                !! (match rest with [] => Config.ProjectID config | _ => c0 end
                    ++ "." ++ match rest with [] => c0 | _ => c1 end)) as [b|] eqn:Hkey.
    + rewrite provision_cached by (rewrite Hkey; eauto). discriminate.
    + destruct (provision_probes (Asset.Name asset) _ _ p Hkey)
        as (r & p' & more & -> & _ & [->|(msg & err & ->)]); discriminate.
  - intros Hempty. unfold getTableRef, BuildTableExistsQuery.
    rewrite Hsplit, Hempty. split; reflexivity.
Qed.

(** *** The metadata reconciler *)

Lemma columnsLoop_any cols colsByName any :
  (columnsLoop cols colsByName any).2
  = any || existsb (fun col => negb (String.eqb (Column.Description col) "")) cols.
Proof.
  revert colsByName any. induction cols as [|col cols IH]; intros colsByName any; simpl.
  - now rewrite orb_false_r.
  - rewrite IH. destruct (String.eqb (Column.Description col) ""), any; reflexivity.
Qed.

Lemma Forall_no_description cols :
  Forall (fun col => Column.Description col = "") cols
  <-> existsb (fun col => negb (String.eqb (Column.Description col) "")) cols = false.
Proof.
  induction cols as [|col cols IH]; simpl.
  - split; [reflexivity|constructor].
  - destruct (String.eqb_spec (Column.Description col) "") as [E|E]; simpl.
    + rewrite <- IH. split; [intros H; now inversion H|now constructor].
    + split; [intros H; inversion H; contradiction|discriminate].
Qed.

(** The test at the head of [UpdateTableMetadataIfNotExist] is the
    condition of the specification. *)
Lemma nothingToPush_test asset :
  nothingToPush asset
  <-> String.eqb (Asset.Description asset) ""
      && ((length (Asset.Columns asset) =? 0)%nat
          || negb (columnsLoop (Asset.Columns asset) ∅ false).2) = true.
Proof.
  unfold nothingToPush. rewrite columnsLoop_any, Forall_no_description. simpl.
  destruct (String.eqb_spec (Asset.Description asset) "") as [E|E]; simpl.
  - destruct (Asset.Columns asset) as [|col cols]; simpl.
    + tauto.
    + destruct (negb (String.eqb (Column.Description col) "") || existsb _ cols); simpl;
        split; try tauto; try discriminate. intros [_ H]. discriminate.
  - split; [tauto|discriminate].
Qed.

Lemma getTableRef_error tableName err :
  getTableRef config tableName = inr err -> err = malformedName tableName.
Proof.
  unfold getTableRef. destruct (anyEmpty _); [congruence|].
  destruct (strings.Split tableName ".") as [|c0 [|c1 [|c2 [|c3 more]]]]; congruence.
Qed.

(** C7. The result is [NoMetadataUpdatedError] exactly when the asset has
    an empty description and no column with a non-empty description, and
    then the process is as it was: no call has been made. *)
Theorem UpdateTableMetadataIfNotExist_nothing_to_push (asset : Asset.t) (p : Process W) :
  ((UpdateTableMetadataIfNotExist config asset p).1 = Some NoMetadataUpdatedError
   <-> nothingToPush asset)
  /\ (nothingToPush asset ->
      UpdateTableMetadataIfNotExist config asset p = (Some NoMetadataUpdatedError, p)).
Proof.
  rewrite nothingToPush_test. unfold UpdateTableMetadataIfNotExist.
  destruct (columnsLoop (Asset.Columns asset) ∅ false) as [colsByName anyCol]. simpl.
  destruct (String.eqb (Asset.Description asset) ""
            && ((length (Asset.Columns asset) =? 0)%nat || negb anyCol)).
  - split; [split; reflexivity|reflexivity].
  - split; [|discriminate]. split; [|discriminate]. intros Hres. exfalso.
    destruct (getTableRef config (Asset.Name asset)) as [tableRef|err] eqn:Href.
    + revert Hres. unfold_M.
      destruct (Table_Metadata tableRef (warehouse p)) as [[meta|err] w1] eqn:Hfetch; simpl.
      * destruct (Table_Update _ _ _ w1) as [[err|] w2]; simpl; discriminate.
      * apply Table_Metadata_foreign in Hfetch.
        destruct (isNotFound err); simpl; [discriminate|].
        intros [= ->]. discriminate.
    + apply getTableRef_error in Href. subst err. discriminate.
Qed.

(** C8, as the code has it. When an update is submitted, it carries a
    primary-key constraint exactly when the asset declares primary-key
    columns, and then lists them all; the live table's constraints are
    not consulted. *)
Theorem UpdateTableMetadataIfNotExist_primary_key (asset : Asset.t) (p : Process W)
        (tableRef : Table.t) (meta : TableMetadata.t) (w1 : W) :
  ~ nothingToPush asset ->
  getTableRef config (Asset.Name asset) = inl tableRef ->
  Table_Metadata tableRef (warehouse p) = (inl meta, w1) ->
  exists update,
    calls (UpdateTableMetadataIfNotExist config asset p).2
    = (calls p ++ [TableMetadataCall tableRef;
                   TableUpdateCall tableRef update (TableMetadata.ETag meta)])%list
    /\ TableMetadataToUpdate.TableConstraints update
       = match Asset.ColumnNamesWithPrimaryKey asset with
         | [] => None
         | primaryKeys =>
             Some {| TableConstraints.PrimaryKey :=
                       Some {| PrimaryKey.Columns := primaryKeys |} |}
         end.
Proof.
  intros Hpush Href Hfetch. rewrite nothingToPush_test in Hpush.
  apply not_true_is_false in Hpush.
  unfold UpdateTableMetadataIfNotExist.
  destruct (columnsLoop (Asset.Columns asset) ∅ false) as [colsByName anyCol].
  simpl in Hpush. rewrite Hpush, Href. unfold_M. rewrite Hfetch. simpl.
  exists (buildUpdate asset colsByName meta). split.
  - destruct (Table_Update _ _ _ w1) as [[err|] w2]; simpl;
      rewrite <- app_assoc; reflexivity.
  - unfold buildUpdate.
    destruct (schemaLoop colsByName (TableMetadata.Schema meta) false) as [schema changed].
    simpl. destruct (Asset.ColumnNamesWithPrimaryKey asset); reflexivity.
Qed.

End ClientProperties.

(** ** Runs on the warehouse in memory *)

(** The scenario of the specification: the live table partitioned by
    "created_at" is deleted by one call, with success. *)
Lemma DropTableOnMismatch_drifted :
  getTableRef Fixtures.home "proj.ds.events" = inl Fixtures.eventsRef
  /\ DropTableOnMismatch "none" Fixtures.home "proj.ds.events" Fixtures.eventsAsset
       (Mem.start Fixtures.driftedWarehouse)
     = (None, mkProcess (Mem.mk [("proj", "ds")] [] None) ∅ ∅
                        [TableMetadataCall Fixtures.eventsRef;
                         TableDeleteCall Fixtures.eventsRef]).
Proof.
  split; [reflexivity|].
  exact (proj1 (proj1 (proj2
           (DropTableOnMismatch_spec "none" Fixtures.home "proj.ds.events"
              Fixtures.eventsAsset (Mem.start Fixtures.driftedWarehouse)
              Fixtures.eventsRef eq_refl))
           (Fixtures.live "TABLE" (Some "created_at") None None None) eq_refl eq_refl)).
Defined.

Example DropTableOnMismatch_matching :
  DropTableOnMismatch "none" Fixtures.home "proj.ds.events" Fixtures.eventsAsset
    (Mem.start Fixtures.matchingWarehouse)
  = (None, mkProcess Fixtures.matchingWarehouse ∅ ∅ [TableMetadataCall Fixtures.eventsRef]).
Proof. reflexivity. Qed.

Example DropTableOnMismatch_absent :
  DropTableOnMismatch "none" Fixtures.home "proj.ds.events" Fixtures.eventsAsset
    (Mem.start Fixtures.emptyWarehouse)
  = (None, mkProcess Fixtures.emptyWarehouse ∅ ∅ [TableMetadataCall Fixtures.eventsRef]).
Proof. reflexivity. Qed.

(** C3, on the code: with the dataset "home.ds" in the warehouse and an
    empty cache, the first call probes, finds the dataset and returns
    success, and the cache is still empty; the second call for the same
    key probes again. *)
Theorem CreateDataSetIfNotExist_found_not_cached :
  let asset := Fixtures.asset "ds.events" "" [] "table" "" [] in
  let first := CreateDataSetIfNotExist Fixtures.home asset (Mem.start Fixtures.datasetWarehouse) in
  let second := CreateDataSetIfNotExist Fixtures.home asset first.2 in
  first.1 = None
  /\ datasetNameCache first.2 = ∅
  /\ calls first.2 = [DatasetMetadataCall "home" "ds"]
  /\ second.1 = None
  /\ calls second.2 = [DatasetMetadataCall "home" "ds"; DatasetMetadataCall "home" "ds"]
  /\ datasetCalls "home" "ds" (calls second.2) = 2%nat.
Proof. vm_compute. repeat split. Qed.

(** After a creation the key is cached, and the second call makes no
    call. *)
Example CreateDataSetIfNotExist_created_cached :
  let asset := Fixtures.asset "ds.events" "" [] "table" "" [] in
  let first := CreateDataSetIfNotExist Fixtures.home asset (Mem.start Fixtures.emptyWarehouse) in
  let second := CreateDataSetIfNotExist Fixtures.home asset first.2 in
  datasetNameCache first.2 !! "home.ds" = Some true
  /\ calls first.2 = [DatasetMetadataCall "home" "ds"; DatasetCreateCall "home" "ds"]
  /\ second = (None, first.2).
Proof. vm_compute. repeat split. Qed.

(** The name ".." has three empty components: the dataset with the empty
    name in the project with the empty name is probed and, not found,
    created, and the key "." is cached. *)
Lemma CreateDataSetIfNotExist_dots :
  CreateDataSetIfNotExist Fixtures.home (Fixtures.asset ".." "" [] "table" "" [])
    (Mem.start Fixtures.emptyWarehouse)
  = (None,
     mkProcess (Mem.mk [("", "")] [] None) (<["." := true]> ∅) ({["."]} ∪ ∅)
               ([] ++ [DatasetMetadataCall "" ""; DatasetCreateCall "" ""])).
Proof.
  exact (proj1 (proj2 (CreateDataSetIfNotExist_unvalidated Fixtures.home
                         (Fixtures.asset ".." "" [] "table" "" [])
                         (Mem.start Fixtures.emptyWarehouse) "" "" [""]
                         eq_refl (le_n 1)))
               eq_refl).
Defined.

(** C10, as stated, fails: the name ".." splits into three components,
    yet the second call for it finds the key "." in the cache and returns
    success without probing or creating anything. *)
Lemma CreateDataSetIfNotExist_dots_cached :
  strings.Split ".." "." = [""; ""; ""]
  /\ CreateDataSetIfNotExist Fixtures.home (Fixtures.asset ".." "" [] "table" "" [])
       (CreateDataSetIfNotExist Fixtures.home (Fixtures.asset ".." "" [] "table" "" [])
          (Mem.start Fixtures.emptyWarehouse)).2
     = (None,
        (CreateDataSetIfNotExist Fixtures.home (Fixtures.asset ".." "" [] "table" "" [])
           (Mem.start Fixtures.emptyWarehouse)).2)
  /\ calls (CreateDataSetIfNotExist Fixtures.home (Fixtures.asset ".." "" [] "table" "" [])
              (CreateDataSetIfNotExist Fixtures.home (Fixtures.asset ".." "" [] "table" "" [])
                 (Mem.start Fixtures.emptyWarehouse)).2).2
     = [DatasetMetadataCall "" ""; DatasetCreateCall "" ""].
Proof. vm_compute. repeat split. Qed.

Example CreateDataSetIfNotExist_empty_project :
  calls (CreateDataSetIfNotExist Fixtures.home (Fixtures.asset ".dataset.table" "" [] "table" "" [])
           (Mem.start Fixtures.emptyWarehouse)).2
  = [DatasetMetadataCall "" "dataset"; DatasetCreateCall "" "dataset"]
  /\ getTableRef Fixtures.home ".dataset.table" = inr (malformedName ".dataset.table")
  /\ BuildTableExistsQuery Fixtures.home ".dataset.table" = inr (malformedName ".dataset.table").
Proof. vm_compute. repeat split. Qed.

Example CreateDataSetIfNotExist_one_component :
  CreateDataSetIfNotExist Fixtures.home (Fixtures.asset "events" "" [] "table" "" [])
    (Mem.start Fixtures.emptyWarehouse)
  = (None, Mem.start Fixtures.emptyWarehouse).
Proof. reflexivity. Qed.

(** C8, as stated, fails: the live table already has the primary key "id"
    the asset declares, and the update submitted carries that primary
    key. *)
Lemma UpdateTableMetadataIfNotExist_repeats_primary_key :
  TableMetadata.TableConstraints Fixtures.usersLive = Some Fixtures.idKey
  /\ Asset.ColumnNamesWithPrimaryKey Fixtures.usersAsset = ["id"]
  /\ UpdateTableMetadataIfNotExist Fixtures.home Fixtures.usersAsset
       (Mem.start Fixtures.usersWarehouse)
     = (None,
        mkProcess Fixtures.usersWarehouse ∅ ∅
          [TableMetadataCall Fixtures.usersRef;
           TableUpdateCall Fixtures.usersRef
             {| TableMetadataToUpdate.Description := Some "Users of the shop";
                TableMetadataToUpdate.Schema := Some (TableMetadata.Schema Fixtures.usersLive);
                TableMetadataToUpdate.TableConstraints := Some Fixtures.idKey |}
             "etag-1"]).
Proof. vm_compute. repeat split. Qed.

Lemma UpdateTableMetadataIfNotExist_primary_key_users :
  exists update,
    calls (UpdateTableMetadataIfNotExist Fixtures.home Fixtures.usersAsset
             (Mem.start Fixtures.usersWarehouse)).2
    = ([] ++ [TableMetadataCall Fixtures.usersRef;
              TableUpdateCall Fixtures.usersRef update "etag-1"])%list
    /\ TableMetadataToUpdate.TableConstraints update = Some Fixtures.idKey.
Proof.
  assert (Hpush : ~ nothingToPush Fixtures.usersAsset).
  { intros [Hdesc _]. vm_compute in Hdesc. discriminate. }
  exact (UpdateTableMetadataIfNotExist_primary_key Fixtures.home Fixtures.usersAsset
           (Mem.start Fixtures.usersWarehouse) Fixtures.usersRef Fixtures.usersLive
           Fixtures.usersWarehouse Hpush eq_refl eq_refl).
Defined.

Example UpdateTableMetadataIfNotExist_silent :
  UpdateTableMetadataIfNotExist Fixtures.home
    (Fixtures.asset "ds.users" ""
       [ {| Column.Name := "id"; Column.Description := ""; Column.PrimaryKey := true |} ]
       "table" "" [])
    (Mem.start Fixtures.usersWarehouse)
  = (Some NoMetadataUpdatedError, Mem.start Fixtures.usersWarehouse).
Proof. reflexivity. Qed.

Example UpdateTableMetadataIfNotExist_column_description :
  calls (UpdateTableMetadataIfNotExist Fixtures.home
           (Fixtures.asset "ds.users" ""
              [ {| Column.Name := "id"; Column.Description := "key"; Column.PrimaryKey := false |} ]
              "table" "" [])
           (Mem.start Fixtures.usersWarehouse)).2
  = [TableMetadataCall Fixtures.usersRef;
     TableUpdateCall Fixtures.usersRef
       {| TableMetadataToUpdate.Description := None;
          TableMetadataToUpdate.Schema :=
            Some [ {| FieldSchema.Name := "id"; FieldSchema.Description := "key";
                      FieldSchema.Type_ := "INTEGER" |} ];
          TableMetadataToUpdate.TableConstraints := None |}
       "etag-1"].
Proof. vm_compute. reflexivity. Qed.

(** * Further properties of the code *)

(** ** Error translation *)

(** Translating twice is translating once. *)
Theorem formatError_idempotent (err : error) :
  formatError (formatError err) = formatError err.
Proof.
  destruct (errors.As err) as [g|] eqn:Has.
  - destruct ((Code g =? 404) || (Code g =? 400)) eqn:Hcode.
    + assert (E : formatError err = errorString (Message g))
        by (unfold formatError; now rewrite Has, Hcode).
      rewrite E. reflexivity.
    + assert (E : formatError err = googleapiError g)
        by (unfold formatError; now rewrite Has, Hcode).
      rewrite E. unfold formatError. simpl. now rewrite Hcode.
  - assert (E : formatError err = err) by (unfold formatError; now rewrite Has).
    now rewrite !E.
Qed.

(** A translated error never carries an API error with status 404 or
    400: a caller cannot recognise a not-found condition in it with
    [errors.As]. *)
Theorem formatError_hides_not_found (err : error) :
  match errors.As (formatError err) with
  | Some g => Code g <> 404 /\ Code g <> 400
  | None => True
  end.
Proof.
  unfold formatError. destruct (errors.As err) as [g|] eqn:Has.
  - destruct ((Code g =? 404) || (Code g =? 400)) eqn:Hcode; simpl; [exact I|].
    apply orb_false_iff in Hcode as [H404 H400].
    split; now apply Z.eqb_neq.
  - now rewrite Has.
Qed.

(** ** The existence query *)

Lemma trimRight_closed s : strings.trimRight (s ++ ")") = s ++ ")".
Proof.
  induction s as [|c s IH]; [reflexivity|].
  change (String c s ++ ")") with (String c (s ++ ")")).
  simpl. rewrite IH. destruct (s ++ ")") eqn:E; [|reflexivity].
  destruct s; discriminate.
Qed.

Lemma append_assoc (a b c : string) : (a ++ b) ++ c = a ++ (b ++ c).
Proof.
  induction a as [|x a IH]; [reflexivity|].
  change (String x (a ++ b) ++ c = String x (a ++ (b ++ c))).
  change (String x ((a ++ b) ++ c) = String x (a ++ (b ++ c))).
  now rewrite IH.
Qed.

(** The text of the existence query for a dataset reference and a
    table. *)
Lemma existsQuery_text datasetRef targetTable :
  strings.TrimSpace
    (String "010" (String "009" (String "009"
       ("SELECT EXISTS (SELECT 1 FROM " ++ datasetRef
        ++ " WHERE table_name = '" ++ targetTable ++ "')"))))
  = "SELECT EXISTS (SELECT 1 FROM " ++ datasetRef
    ++ " WHERE table_name = '" ++ targetTable ++ "')".
Proof.
  unfold strings.TrimSpace.
  change (strings.trimLeft _)
    with ("SELECT EXISTS (SELECT 1 FROM " ++ datasetRef
          ++ " WHERE table_name = '" ++ targetTable ++ "')").
  replace ("SELECT EXISTS (SELECT 1 FROM " ++ datasetRef
           ++ " WHERE table_name = '" ++ targetTable ++ "')")
    with (("SELECT EXISTS (SELECT 1 FROM " ++ datasetRef
           ++ " WHERE table_name = '" ++ targetTable ++ "'") ++ ")").
  - apply trimRight_closed.
  - now rewrite !append_assoc.
Qed.

(** [BuildTableExistsQuery] accepts the names [getTableRef] accepts and
    rejects the others with the same error; for an accepted name the
    query reads the tables of the dataset the name resolves to and asks
    for the table it resolves to, both inserted as they are. *)
Theorem BuildTableExistsQuery_getTableRef (config : Config.t) (tableName : string) :
  BuildTableExistsQuery config tableName
  = match getTableRef config tableName with
    | inl tableRef =>
        inl ("SELECT EXISTS (SELECT 1 FROM "
             ++ (Table.ProjectID tableRef ++ "." ++ Table.DatasetID tableRef
                 ++ ".INFORMATION_SCHEMA.TABLES")
             ++ " WHERE table_name = '" ++ Table.TableID tableRef ++ "')")
    | inr err => inr err
    end.
Proof.
  unfold BuildTableExistsQuery, getTableRef.
  destruct (anyEmpty (strings.Split tableName ".")); [reflexivity|].
  destruct (strings.Split tableName ".") as [|c0 [|c1 [|c2 [|c3 more]]]];
    try reflexivity; cbv zeta; rewrite existsQuery_text; reflexivity.
Qed.

(** ** Drift detection *)

Lemma partitionedOrDeclared_dec meta asset :
  partitionedOrDeclared meta asset
  \/ (TableMetadata.TimePartitioning meta = None
      /\ TableMetadata.RangePartitioning meta = None
      /\ Materialization.PartitionBy (Asset.Materialization asset) = ""
      /\ Materialization.ClusterBy (Asset.Materialization asset) = []).
Proof.
  unfold partitionedOrDeclared.
  destruct (TableMetadata.TimePartitioning meta); [left; left; discriminate|].
  destruct (TableMetadata.RangePartitioning meta); [left; right; left; discriminate|].
  destruct (String.eqb_spec (Materialization.PartitionBy (Asset.Materialization asset)) "")
    as [->|Hpb]; [|left; right; right; left; assumption].
  destruct (Materialization.ClusterBy (Asset.Materialization asset));
    [right; repeat split|left; right; right; right; discriminate].
Qed.

Lemma IsSamePartitioning_plain meta asset :
  TableMetadata.TimePartitioning meta = None ->
  TableMetadata.RangePartitioning meta = None ->
  Materialization.PartitionBy (Asset.Materialization asset) = "" ->
  IsSamePartitioning meta asset = true.
Proof. unfold IsSamePartitioning. intros -> -> ->. reflexivity. Qed.

(** The aggregate reports a mismatch exactly when the partitioning
    differs, or the clustering differs and the live table is partitioned
    or the asset declares a partition column or cluster columns: it never
    reports one when both predicates match, and it reports every
    partitioning mismatch. *)
Theorem IsPartitioningOrClusteringMismatch_reports (meta : TableMetadata.t) (asset : Asset.t) :
  IsPartitioningOrClusteringMismatch meta asset = true
  <-> IsSamePartitioning meta asset = false
      \/ (IsSameClustering meta asset = false /\ partitionedOrDeclared meta asset).
Proof.
  destruct (partitionedOrDeclared_dec meta asset) as [Hg|(Htp & Hrp & Hpb & Hcb)].
  - rewrite (IsPartitioningOrClusteringMismatch_checked meta asset Hg).
    destruct (IsSamePartitioning meta asset), (IsSameClustering meta asset); simpl;
      intuition congruence.
  - rewrite (IsPartitioningOrClusteringMismatch_skipped meta asset Htp Hrp Hpb Hcb).
    rewrite (IsSamePartitioning_plain meta asset Htp Hrp Hpb).
    split; [discriminate|]. intros [H|[_ Hg]]; [discriminate|].
    unfold partitionedOrDeclared in Hg. intuition congruence.
Qed.

(** The drift the aggregate does not report: one of the two predicates
    says mismatch and the aggregate says none exactly when the live table
    is clustered by at least one field and not partitioned, and the asset
    declares no partition column and no cluster columns. *)
Theorem IsPartitioningOrClusteringMismatch_unreported (meta : TableMetadata.t) (asset : Asset.t) :
  (IsPartitioningOrClusteringMismatch meta asset = false
   /\ (IsSamePartitioning meta asset = false \/ IsSameClustering meta asset = false))
  <-> (TableMetadata.TimePartitioning meta = None
       /\ TableMetadata.RangePartitioning meta = None
       /\ Materialization.PartitionBy (Asset.Materialization asset) = ""
       /\ Materialization.ClusterBy (Asset.Materialization asset) = []
       /\ exists c, TableMetadata.Clustering meta = Some c /\ Clustering.Fields c <> []).
Proof.
  destruct (partitionedOrDeclared_dec meta asset) as [Hg|(Htp & Hrp & Hpb & Hcb)].
  - rewrite (IsPartitioningOrClusteringMismatch_checked meta asset Hg). split.
    + destruct (IsSamePartitioning meta asset), (IsSameClustering meta asset); simpl;
        intros [? [?|?]]; discriminate.
    + intros (Htp & Hrp & Hpb & Hcb & _). unfold partitionedOrDeclared in Hg.
      intuition congruence.
  - rewrite (IsPartitioningOrClusteringMismatch_skipped meta asset Htp Hrp Hpb Hcb).
    rewrite (IsSamePartitioning_plain meta asset Htp Hrp Hpb).
    unfold IsSameClustering. rewrite Hcb. simpl.
    destruct (TableMetadata.Clustering meta) as [c|].
    + destruct (Clustering.Fields c) as [|f fs] eqn:Hf; simpl.
      * split; [intros [_ [?|?]]; discriminate|].
        intros (_ & _ & _ & _ & c' & [= <-] & Hne). congruence.
      * split; [|intros _; split; [reflexivity|right; reflexivity]].
        intros _. repeat split; try assumption.
        exists c. split; [reflexivity|]. rewrite Hf. discriminate.
    + split; [intros [_ [?|?]]; discriminate|].
      intros (_ & _ & _ & _ & c' & [=] & _).
Qed.

Lemma EqualFold_ToLower s t :
  strings.EqualFold s t = String.eqb (strings.ToLower s) (strings.ToLower t).
Proof.
  revert t. induction s as [|a s IH]; intros [|b t]; simpl; try reflexivity.
  rewrite IH. destruct (Ascii.eqb (strings.toLower a) (strings.toLower b)); reflexivity.
Qed.

(** For type strings of ASCII bytes, on which [strings.EqualFold] is the
    folding of the letters A-Z: there is no mismatch exactly when the
    asset's type is the none type, byte for byte, or the live type and the
    asset's type have the same lower-case form. *)
Theorem IsMaterializationTypeMismatch_ascii
        (MaterializationTypeNone : string) (meta : TableMetadata.t) (asset : Asset.t) :
  strings.IsASCII (TableMetadata.Type_ meta) = true ->
  strings.IsASCII (Materialization.Type_ (Asset.Materialization asset)) = true ->
  (IsMaterializationTypeMismatch MaterializationTypeNone meta asset = false
   <-> Materialization.Type_ (Asset.Materialization asset) = MaterializationTypeNone
       \/ strings.ToLower (TableMetadata.Type_ meta)
          = strings.ToLower (Materialization.Type_ (Asset.Materialization asset))).
Proof.
  intros _ _. unfold IsMaterializationTypeMismatch. rewrite EqualFold_ToLower.
  destruct (String.eqb_spec (Materialization.Type_ (Asset.Materialization asset))
              MaterializationTypeNone) as [E|E].
  - split; [now left|reflexivity].
  - destruct (String.eqb_spec (strings.ToLower (TableMetadata.Type_ meta))
                (strings.ToLower (Materialization.Type_ (Asset.Materialization asset))))
      as [E'|E']; simpl.
    + split; [now right|reflexivity].
    + split; [discriminate|]. intros [?|?]; contradiction.
Qed.

Lemma IsMaterializationTypeMismatch_ascii_table :
  IsMaterializationTypeMismatch "none" (Fixtures.live "TABLE" None None None None)
    (Fixtures.asset "ds.t" "" [] "table" "" []) = false.
Proof.
  apply (proj2 (IsMaterializationTypeMismatch_ascii "none"
                  (Fixtures.live "TABLE" None None None None)
                  (Fixtures.asset "ds.t" "" [] "table" "" []) eq_refl eq_refl)).
  right. reflexivity.
Defined.

Example IsMaterializationTypeMismatch_table :
  IsMaterializationTypeMismatch "none" (Fixtures.live "TABLE" None None None None)
    (Fixtures.asset "ds.t" "" [] "table" "" []) = false
  /\ IsMaterializationTypeMismatch "none" (Fixtures.live "VIEW" None None None None)
       (Fixtures.asset "ds.t" "" [] "table" "" []) = true
  /\ IsMaterializationTypeMismatch "none" (Fixtures.live "VIEW" None None None None)
       (Fixtures.asset "ds.t" "" [] "none" "" []) = false.
Proof. repeat split. Qed.

(** ** The drop-on-mismatch step *)

Lemma getTableRef_rejects config tableName :
  ~ wellFormedSegments (strings.Split tableName ".") ->
  getTableRef config tableName = inr (malformedName tableName).
Proof.
  intros Hbad. unfold getTableRef.
  destruct (anyEmpty (strings.Split tableName ".")) eqn:Hempty; [reflexivity|].
  apply anyEmpty_false in Hempty.
  destruct (strings.Split tableName ".") as [|c0 [|c1 [|c2 [|c3 more]]]];
    try reflexivity; exfalso; apply Hbad; (split; [|assumption]); auto.
Qed.

Section ClientFrames.
Context {W : Type} `{!Warehouse W}.
Variable MaterializationTypeNone : string.
Variable config : Config.t.

(** What a call may do: it leaves the cache and the locks of the dataset
    provisioner alone and makes at most two calls, the fetch and one
    delete; a delete is only issued for the table the name resolves to,
    after the fetch of that table has returned metadata that mismatches
    the asset. *)
Theorem DropTableOnMismatch_deletes_only_mismatch
        (tableName : string) (asset : Asset.t) (p : Process W) :
  let run := DropTableOnMismatch MaterializationTypeNone config tableName asset p in
  datasetNameCache run.2 = datasetNameCache p
  /\ datasetLocks run.2 = datasetLocks p
  /\ exists new,
       calls run.2 = (calls p ++ new)%list
       /\ (deleteCalls new <= 1)%nat
       /\ (length new <= 2)%nat
       /\ forall tableRef,
            In (TableDeleteCall tableRef) new ->
            getTableRef config tableName = inl tableRef
            /\ new = [TableMetadataCall tableRef; TableDeleteCall tableRef]
            /\ exists meta,
                 (Table_Metadata tableRef (warehouse p)).1 = inl meta
                 /\ IsMaterializationTypeMismatch MaterializationTypeNone meta asset
                    || IsPartitioningOrClusteringMismatch meta asset = true.
Proof.
  cbv zeta. unfold DropTableOnMismatch.
  destruct (getTableRef config tableName) as [tableRef|err] eqn:Href.
  - unfold_M.
    destruct (Table_Metadata tableRef (warehouse p)) as [[meta|err] w1] eqn:Hfetch; simpl.
    + destruct (IsMaterializationTypeMismatch MaterializationTypeNone meta asset
                || IsPartitioningOrClusteringMismatch meta asset) eqn:Hmis; simpl.
      * destruct (Table_Delete tableRef w1) as [[err|] w2]; simpl;
          (split; [reflexivity|split; [reflexivity|]]);
          exists [TableMetadataCall tableRef; TableDeleteCall tableRef];
          rewrite <- app_assoc; simpl;
          (split; [reflexivity|split; [lia|split; [lia|]]]);
          intros t [H|[H|[]]]; try discriminate; injection H as <-;
          (split; [reflexivity|split; [reflexivity|]]);
          exists meta; (split; [now rewrite Hfetch|assumption]).
      * split; [reflexivity|split; [reflexivity|]].
        exists [TableMetadataCall tableRef]. simpl.
        split; [reflexivity|split; [lia|split; [lia|]]].
        intros t [H|[]]. discriminate.
    + destruct (isNotFound err); simpl; (split; [reflexivity|split; [reflexivity|]]);
        exists [TableMetadataCall tableRef]; simpl;
        (split; [reflexivity|split; [lia|split; [lia|]]]);
        intros t [H|[]]; discriminate.
  - simpl. split; [reflexivity|split; [reflexivity|]].
    exists []. rewrite app_nil_r. simpl.
    split; [reflexivity|split; [lia|split; [lia|]]]. intros t [].
Qed.

(** A name that is not of 2 or 3 non-empty segments fails with the
    malformed-name error before any call is made. *)
Theorem DropTableOnMismatch_malformed_name
        (tableName : string) (asset : Asset.t) (p : Process W) :
  ~ wellFormedSegments (strings.Split tableName ".") ->
  DropTableOnMismatch MaterializationTypeNone config tableName asset p
  = (Some (malformedName tableName), p).
Proof.
  intros Hbad. unfold DropTableOnMismatch.
  now rewrite (getTableRef_rejects config tableName Hbad).
Qed.

(** A fetch that fails with anything but not-found ends the call with the
    failure, wrapped with the table name and still to be found in the
    chain by [errors.As]; nothing is deleted. *)
Theorem DropTableOnMismatch_fetch_failure
        (tableName : string) (asset : Asset.t) (p : Process W)
        (tableRef : Table.t) (err : error) (w1 : W) :
  getTableRef config tableName = inl tableRef ->
  Table_Metadata tableRef (warehouse p) = (inr err, w1) ->
  isNotFound err = false ->
  exists failure,
    DropTableOnMismatch MaterializationTypeNone config tableName asset p
    = (Some failure,
       mkProcess w1 (datasetNameCache p) (datasetLocks p)
                 (calls p ++ [TableMetadataCall tableRef]))
    /\ failure = wrapError ("failed to fetch metadata for table '" ++ tableName ++ "'") err
    /\ errors.As failure = errors.As err.
Proof.
  intros Href Hfetch Hnf. eexists. split; [|split; reflexivity].
  unfold DropTableOnMismatch. rewrite Href. unfold_M. rewrite Hfetch, Hnf. reflexivity.
Qed.

End ClientFrames.

(** ** The dataset provisioner *)

Lemma ContainsByte_app_sep a b sep : strings.ContainsByte (a ++ String sep b) sep = true.
Proof.
  induction a as [|x a IH].
  - simpl. now rewrite Ascii.eqb_refl.
  - change (String x a ++ String sep b) with (String x (a ++ String sep b)).
    simpl. rewrite IH. apply orb_true_r.
Qed.

(** A string is cut at its last separator in one way only. *)
Lemma append_sep_inj a b c d sep :
  strings.ContainsByte b sep = false ->
  strings.ContainsByte d sep = false ->
  a ++ String sep b = c ++ String sep d ->
  a = c /\ b = d.
Proof.
  intros Hb Hd. revert c. induction a as [|x a IH]; intros [|y c] E.
  - injection E as ->. split; reflexivity.
  - change (String sep b = String y (c ++ String sep d)) in E.
    injection E as _ E. rewrite E, ContainsByte_app_sep in Hb. discriminate.
  - change (String x (a ++ String sep b) = String sep d) in E.
    injection E as _ E. rewrite <- E, ContainsByte_app_sep in Hd. discriminate.
  - change (String x (a ++ String sep b) = String y (c ++ String sep d)) in E.
    injection E as -> E. destruct (IH c E) as [-> ->]. split; reflexivity.
Qed.

Lemma datasetOf_no_dot config tableName d :
  datasetOf config tableName = Some d -> strings.ContainsByte d.2 "." = false.
Proof.
  unfold datasetOf. pose proof (Split_no_sep tableName ".") as Hall.
  destruct (strings.Split tableName ".") as [|c0 [|c1 [|c2 [|c3 more]]]];
    try discriminate; intros [= <-]; simpl.
  - now inversion Hall.
  - inversion Hall as [|? ? _ Hall']. now inversion Hall'.
Qed.

(** Two table names share an entry of the cache (and a lock) only if they
    name the same dataset of the same project. *)
Theorem cacheKey_injective (config : Config.t) (tableName tableName' : string)
        (d d' : string * string) :
  datasetOf config tableName = Some d ->
  datasetOf config tableName' = Some d' ->
  cacheKey d = cacheKey d' ->
  d = d'.
Proof.
  intros Hd Hd' Hkey.
  apply datasetOf_no_dot in Hd, Hd'. destruct d as [pr ds], d' as [pr' ds'].
  unfold cacheKey in Hkey. simpl in *.
  destruct (append_sep_inj pr ds pr' ds' "." Hd Hd' Hkey) as [-> ->]. reflexivity.
Qed.

Lemma cacheKey_injective_example :
  (("home", "ds") : string * string) = ("home", "ds").
Proof.
  exact (cacheKey_injective Fixtures.home "ds.events" "home.ds.users"
           ("home", "ds") ("home", "ds") eq_refl eq_refl eq_refl).
Defined.

Section ProvisionerProperties.
Context {W : Type} `{!Warehouse W}.
Variable config : Config.t.

Lemma CreateDataSetIfNotExist_datasetOf (asset : Asset.t) :
  CreateDataSetIfNotExist config asset
  = match datasetOf config (Asset.Name asset) with
    | Some d => provision (W := W) (Asset.Name asset) d.1 d.2
    | None => mret None
    end.
Proof.
  unfold CreateDataSetIfNotExist, datasetOf.
  destruct (strings.Split (Asset.Name asset) ".") as [|c0 [|c1 [|c2 [|c3 more]]]];
    reflexivity.
Qed.

(** What one run of the body below the switch does, case by case. *)
Lemma provision_cases tableName projectID datasetName (p : Process W) :
  let key := projectID ++ "." ++ datasetName in
  let run := provision tableName projectID datasetName p in
  let probe := DatasetMetadataCall projectID datasetName in
  let create := DatasetCreateCall projectID datasetName in
  (is_Some (datasetNameCache p !! key) /\ run = (None, p))
  \/ (datasetNameCache p !! key = None
      /\ datasetLocks run.2 = {[key]} ∪ datasetLocks p
      /\ ((run.1 = None /\ calls run.2 = (calls p ++ [probe])%list
           /\ datasetNameCache run.2 = datasetNameCache p
           /\ (Dataset_Metadata projectID datasetName (warehouse p)).1 = None)
          \/ (exists err, (Dataset_Metadata projectID datasetName (warehouse p)).1 = Some err
              /\ isNotFound err = false
              /\ run.1 = Some (wrapError ("failed to fetch metadata for table '"
                                           ++ tableName ++ "'") err)
              /\ calls run.2 = (calls p ++ [probe])%list
              /\ datasetNameCache run.2 = datasetNameCache p)
          \/ (exists err, (Dataset_Metadata projectID datasetName (warehouse p)).1 = Some err
              /\ isNotFound err = true
              /\ calls run.2 = (calls p ++ [probe; create])%list
              /\ ((exists err', run.1 = Some (wrapError ("failed to create dataset '"
                                                       ++ datasetName ++ "'") err')
                   /\ datasetNameCache run.2 = datasetNameCache p)
                  \/ (run.1 = None
                      /\ datasetNameCache run.2 = <[key := true]> (datasetNameCache p)))))).
Proof.
  cbv zeta.
  destruct (datasetNameCache p !! (projectID ++ "." ++ datasetName)) as [b|] eqn:Hkey.
  - left. split; [eauto|]. apply provision_cached. rewrite Hkey. eauto.
  - right. split; [reflexivity|].
    unfold provision. unfold_M. simpl.
    do 2 (rewrite bool_decide_eq_false_2 by (rewrite Hkey; apply is_Some_None); simpl).
    destruct (Dataset_Metadata projectID datasetName (warehouse p)) as [[err|] w1]; simpl.
    + destruct (isNotFound err) eqn:Hnf; simpl.
      * destruct (Dataset_Create projectID datasetName w1) as [[err'|] w2]; simpl;
          (split; [reflexivity|]); right; right; exists err;
          rewrite <- app_assoc; simpl;
          (split; [reflexivity|split; [assumption|split; [reflexivity|]]]).
        -- left. eauto.
        -- right. split; reflexivity.
      * split; [reflexivity|]. right; left. exists err. repeat split; assumption.
    + split; [reflexivity|]. left. repeat split.
Qed.

(** A name of one component, or of four or more, is left alone: success,
    and nothing has happened. *)
Theorem CreateDataSetIfNotExist_other_names (asset : Asset.t) (p : Process W) :
  length (strings.Split (Asset.Name asset) ".") <> 2%nat ->
  length (strings.Split (Asset.Name asset) ".") <> 3%nat ->
  CreateDataSetIfNotExist config asset p = (None, p).
Proof.
  intros H2 H3. unfold CreateDataSetIfNotExist.
  destruct (strings.Split (Asset.Name asset) ".") as [|c0 [|c1 [|c2 [|c3 more]]]];
    simpl in *; try reflexivity; congruence.
Qed.

(** A dataset whose key is in the cache is not looked at again: success,
    without a call, a lock or a change. *)
Theorem CreateDataSetIfNotExist_cached (asset : Asset.t) (p : Process W)
        (d : string * string) (b : bool) :
  datasetOf config (Asset.Name asset) = Some d ->
  datasetNameCache p !! cacheKey d = Some b ->
  CreateDataSetIfNotExist config asset p = (None, p).
Proof.
  intros Hd Hhit. rewrite CreateDataSetIfNotExist_datasetOf, Hd.
  apply provision_cached. unfold cacheKey in Hhit. rewrite Hhit. eauto.
Qed.

(** The cache and the locks only grow. The cache changes in one case
    only: the call succeeded after creating the dataset, and the entry
    added is the key of that dataset; a call that fails leaves the cache
    as it was. *)
Theorem CreateDataSetIfNotExist_cache_grows (asset : Asset.t) (p : Process W) :
  let run := CreateDataSetIfNotExist config asset p in
  datasetNameCache p ⊆ datasetNameCache run.2
  /\ datasetLocks p ⊆ datasetLocks run.2
  /\ (datasetNameCache run.2 = datasetNameCache p
      \/ exists d,
           datasetOf config (Asset.Name asset) = Some d
           /\ run.1 = None
           /\ datasetNameCache p !! cacheKey d = None
           /\ datasetNameCache run.2 = <[cacheKey d := true]> (datasetNameCache p)
           /\ calls run.2 = (calls p ++ [DatasetMetadataCall d.1 d.2;
                                         DatasetCreateCall d.1 d.2])%list)
  /\ (forall err, run.1 = Some err -> datasetNameCache run.2 = datasetNameCache p).
Proof.
  cbv zeta. rewrite CreateDataSetIfNotExist_datasetOf.
  destruct (datasetOf config (Asset.Name asset)) as [[pr ds]|] eqn:Hd.
  - simpl.
    destruct (provision_cases (Asset.Name asset) pr ds p)
      as [[_ ->]|(Hmiss & Hlocks & [(Hr & Hc & Hcache & _)
                                   |[(err & _ & _ & Hr & Hc & Hcache)
                                    |(err & _ & _ & Hc & [(err' & Hr & Hcache)|[Hr Hcache]])]])];
      simpl; rewrite ?Hlocks, ?Hcache.
    + repeat split; auto.
    + repeat split; auto. apply union_subseteq_r.
    + repeat split; auto. apply union_subseteq_r.
    + repeat split; auto. apply union_subseteq_r.
    + split; [now apply insert_subseteq|]. split; [apply union_subseteq_r|]. split.
      * right. exists (pr, ds). repeat split; assumption.
      * intros e He. rewrite Hr in He. discriminate.
  - simpl. repeat split; auto.
Qed.

(** The calls of one run: none, or the probe of the dataset the name
    gives, or that probe and the creation of the same dataset; the
    creation is only issued after the probe has answered not-found. *)
Theorem CreateDataSetIfNotExist_calls (asset : Asset.t) (p : Process W) :
  let run := CreateDataSetIfNotExist config asset p in
  exists new,
    calls run.2 = (calls p ++ new)%list
    /\ (new = []
        \/ exists d,
             datasetOf config (Asset.Name asset) = Some d
             /\ datasetNameCache p !! cacheKey d = None
             /\ (new = [DatasetMetadataCall d.1 d.2]
                 \/ (new = [DatasetMetadataCall d.1 d.2; DatasetCreateCall d.1 d.2]
                     /\ exists err,
                          (Dataset_Metadata d.1 d.2 (warehouse p)).1 = Some err
                          /\ isNotFound err = true))).
Proof.
  cbv zeta. rewrite CreateDataSetIfNotExist_datasetOf.
  destruct (datasetOf config (Asset.Name asset)) as [[pr ds]|] eqn:Hd.
  - simpl.
    destruct (provision_cases (Asset.Name asset) pr ds p)
      as [[_ ->]|(Hmiss & Hlocks & [(Hr & Hc & Hcache & _)
                                   |[(err & _ & _ & Hr & Hc & Hcache)
                                    |(err & Hprobe & Hnf & Hc & _)]])].
    + exists []. rewrite app_nil_r. split; [reflexivity|now left].
    + eexists. split; [exact Hc|]. right. exists (pr, ds). auto.
    + eexists. split; [exact Hc|]. right. exists (pr, ds). auto.
    + eexists. split; [exact Hc|]. right. exists (pr, ds).
      split; [reflexivity|]. split; [assumption|]. right. split; [reflexivity|]. eauto.
  - exists []. rewrite app_nil_r. split; [reflexivity|now left].
Qed.

(** A failed call is not remembered: the next call for the same asset
    probes the warehouse again. *)
Theorem CreateDataSetIfNotExist_retries (asset : Asset.t) (p : Process W) (err : error) :
  (CreateDataSetIfNotExist config asset p).1 = Some err ->
  exists d more,
    datasetOf config (Asset.Name asset) = Some d
    /\ calls (CreateDataSetIfNotExist config asset
                (CreateDataSetIfNotExist config asset p).2).2
       = (calls (CreateDataSetIfNotExist config asset p).2
          ++ DatasetMetadataCall d.1 d.2 :: more)%list.
Proof.
  rewrite !CreateDataSetIfNotExist_datasetOf.
  destruct (datasetOf config (Asset.Name asset)) as [[pr ds]|] eqn:Hd; [|discriminate].
  simpl. intros Hres.
  assert (Hmiss : datasetNameCache (provision (Asset.Name asset) pr ds p).2
                  !! (pr ++ "." ++ ds) = None).
  { destruct (provision_cases (Asset.Name asset) pr ds p)
      as [[_ E]|(Hmiss & _ & [(Hr & _)
                             |[(e & _ & _ & _ & _ & Hcache)
                              |(e & _ & _ & _ & [(e' & _ & Hcache)|[Hr _]])]])];
      try (rewrite Hcache; exact Hmiss).
    - rewrite E in Hres. discriminate.
    - rewrite Hr in Hres. discriminate.
    - rewrite Hr in Hres. discriminate. }
  destruct (provision_probes (Asset.Name asset) pr ds _ Hmiss)
    as (r & p' & more & Hrun & Hcalls & _).
  exists (pr, ds), more. split; [reflexivity|]. simpl. now rewrite Hrun.
Qed.

(** Once a call has created the dataset, a call for any table of the same
    dataset, named with or without the project, does nothing. *)
Theorem CreateDataSetIfNotExist_created_once
        (asset asset' : Asset.t) (p : Process W) (d : string * string)
        (err : error) (w1 w2 : W) :
  datasetOf config (Asset.Name asset) = Some d ->
  datasetOf config (Asset.Name asset') = Some d ->
  datasetNameCache p !! cacheKey d = None ->
  Dataset_Metadata d.1 d.2 (warehouse p) = (Some err, w1) ->
  isNotFound err = true ->
  Dataset_Create d.1 d.2 w1 = (None, w2) ->
  CreateDataSetIfNotExist config asset' (CreateDataSetIfNotExist config asset p).2
  = (None, (CreateDataSetIfNotExist config asset p).2).
Proof.
  intros Hd Hd' Hmiss Hprobe Hnf Hcreate.
  rewrite !CreateDataSetIfNotExist_datasetOf, Hd, Hd'.
  rewrite (provision_created (Asset.Name asset) d.1 d.2 p err w1 w2 Hmiss Hprobe Hnf Hcreate).
  simpl. apply provision_cached. simpl. rewrite lookup_insert_eq. eauto.
Qed.

End ProvisionerProperties.

(** ** The metadata reconciler *)

(** [colsByName] after the first loop: the last column of each name. *)
Lemma columnsLoop_lookup cols (colsByName : gmap string Column.t) any name :
  (columnsLoop cols colsByName any).1 !! name
  = match columnNamed name cols with
    | Some col => Some col
    | None => colsByName !! name
    end.
Proof.
  revert colsByName any. induction cols as [|col cols IH]; intros colsByName any.
  - reflexivity.
  - simpl. rewrite IH. unfold columnNamed. rewrite filter_cons.
    destruct (decide (Column.Name col = name)) as [E|E].
    + rewrite last_cons.
      destruct (last (filter (fun c => Column.Name c = name) cols)); [reflexivity|].
      rewrite E. apply lookup_insert_eq.
    + destruct (last (filter (fun c => Column.Name c = name) cols)); [reflexivity|].
      now apply lookup_insert_ne.
Qed.

(** The second loop maps the schema and records whether a field had a
    column. *)
Lemma schemaLoop_map (colsByName : gmap string Column.t) schema changed :
  schemaLoop colsByName schema changed
  = (map (fun field =>
            match colsByName !! FieldSchema.Name field with
            | Some col =>
                {| FieldSchema.Name := FieldSchema.Name field;
                   FieldSchema.Description := Column.Description col;
                   FieldSchema.Type_ := FieldSchema.Type_ field |}
            | None => field
            end) schema,
     changed || existsb (fun field =>
                           bool_decide (is_Some (colsByName !! FieldSchema.Name field)))
                        schema).
Proof.
  revert changed. induction schema as [|field schema IH]; intros changed; simpl.
  - now rewrite orb_false_r.
  - destruct (colsByName !! FieldSchema.Name field) as [col|] eqn:Hcol.
    + rewrite IH. simpl. now rewrite ?orb_true_r.
    + rewrite IH. simpl. reflexivity.
Qed.

Lemma columnNamed_empty_map name cols :
  (columnsLoop cols ∅ false).1 !! name = columnNamed name cols.
Proof.
  rewrite columnsLoop_lookup. destruct (columnNamed name cols); [reflexivity|].
  apply lookup_empty.
Qed.

(** The update the code builds with its two loops is the update said at
    once. *)
Lemma buildUpdate_pushedUpdate asset meta :
  buildUpdate asset (columnsLoop (Asset.Columns asset) ∅ false).1 meta
  = pushedUpdate asset meta.
Proof.
  unfold buildUpdate, pushedUpdate. rewrite schemaLoop_map. simpl.
  f_equal.
  - destruct (decide (Asset.Description asset = "")) as [E|E].
    + rewrite E. reflexivity.
    + apply String.eqb_neq in E. now rewrite E.
  - assert (Hex : existsb (fun field => bool_decide (is_Some
                     ((columnsLoop (Asset.Columns asset) ∅ false).1 !! FieldSchema.Name field)))
                    (TableMetadata.Schema meta)
                  = existsb (fun field => bool_decide (is_Some
                     (columnNamed (FieldSchema.Name field) (Asset.Columns asset))))
                    (TableMetadata.Schema meta)).
    { induction (TableMetadata.Schema meta) as [|f fs IHfs]; simpl; [reflexivity|].
      now rewrite IHfs, columnNamed_empty_map. }
    rewrite Hex. clear Hex.
    match goal with
    | |- (if _ then Some (map ?f _) else None) = _ =>
        rewrite (map_ext f (described (Asset.Columns asset)))
    end; [reflexivity|].
    intros field. unfold described. now rewrite columnNamed_empty_map.
  - destruct (Asset.ColumnNamesWithPrimaryKey asset); reflexivity.
Qed.

Section ReconcilerProperties.
Context {W : Type} `{!Warehouse W}.
Variable config : Config.t.

Lemma UpdateTableMetadataIfNotExist_pushing asset (p : Process W) :
  ~ nothingToPush asset ->
  UpdateTableMetadataIfNotExist config asset p
  = match getTableRef config (Asset.Name asset) with
    | inr err => (Some err, p)
    | inl tableRef =>
        let fetched := Table_Metadata tableRef (warehouse p) in
        match fetched.1 with
        | inr err =>
            (if isNotFound err then None else Some err,
             mkProcess fetched.2 (datasetNameCache p) (datasetLocks p)
                       (calls p ++ [TableMetadataCall tableRef]))
        | inl meta =>
            let update := pushedUpdate asset meta in
            let updated := Table_Update tableRef update (TableMetadata.ETag meta) fetched.2 in
            (match updated.1 with
             | Some err => Some (wrapError "failed to update table metadata" err)
             | None => None
             end,
             mkProcess updated.2 (datasetNameCache p) (datasetLocks p)
                       (calls p ++ [TableMetadataCall tableRef;
                                    TableUpdateCall tableRef update (TableMetadata.ETag meta)]))
        end
    end.
Proof.
  intros Hpush. rewrite nothingToPush_test in Hpush. apply not_true_is_false in Hpush.
  unfold UpdateTableMetadataIfNotExist.
  pose proof (buildUpdate_pushedUpdate asset) as Hbuild.
  destruct (columnsLoop (Asset.Columns asset) ∅ false) as [colsByName anyCol].
  simpl in Hpush, Hbuild. rewrite Hpush.
  destruct (getTableRef config (Asset.Name asset)) as [tableRef|err]; [|reflexivity].
  unfold_M. cbv zeta.
  destruct (Table_Metadata tableRef (warehouse p)) as [[meta|err] w1]; simpl.
  - rewrite Hbuild.
    destruct (Table_Update tableRef (pushedUpdate asset meta) (TableMetadata.ETag meta) w1)
      as [[err|] w2]; simpl; rewrite <- app_assoc; reflexivity.
  - destruct (isNotFound err); reflexivity.
Qed.

(** With something to push onto a table that is there, one update is
    submitted after the fetch, with the version token just fetched: the
    asset's description unless empty, the live schema in which every
    field named like an asset column has the description of the last such
    column (also an empty one), when there is such a field, and the
    primary key of the asset. A failure of the update is returned
    wrapped. *)
Theorem UpdateTableMetadataIfNotExist_submits
        (asset : Asset.t) (p : Process W) (tableRef : Table.t)
        (meta : TableMetadata.t) (w1 : W) :
  ~ nothingToPush asset ->
  getTableRef config (Asset.Name asset) = inl tableRef ->
  Table_Metadata tableRef (warehouse p) = (inl meta, w1) ->
  let update := pushedUpdate asset meta in
  let updated := Table_Update tableRef update (TableMetadata.ETag meta) w1 in
  UpdateTableMetadataIfNotExist config asset p
  = (match updated.1 with
     | Some err => Some (wrapError "failed to update table metadata" err)
     | None => None
     end,
     mkProcess updated.2 (datasetNameCache p) (datasetLocks p)
               (calls p ++ [TableMetadataCall tableRef;
                            TableUpdateCall tableRef update (TableMetadata.ETag meta)])).
Proof.
  intros Hpush Href Hfetch.
  rewrite (UpdateTableMetadataIfNotExist_pushing asset p Hpush), Href, Hfetch.
  reflexivity.
Qed.

(** With something to push onto a table that is not there, the result is
    success after the fetch alone; any other failure of the fetch is
    returned as it is, not wrapped. In both cases no update is
    submitted. *)
Theorem UpdateTableMetadataIfNotExist_fetch_failure
        (asset : Asset.t) (p : Process W) (tableRef : Table.t) (err : error) (w1 : W) :
  ~ nothingToPush asset ->
  getTableRef config (Asset.Name asset) = inl tableRef ->
  Table_Metadata tableRef (warehouse p) = (inr err, w1) ->
  UpdateTableMetadataIfNotExist config asset p
  = (if isNotFound err then None else Some err,
     mkProcess w1 (datasetNameCache p) (datasetLocks p)
               (calls p ++ [TableMetadataCall tableRef])).
Proof.
  intros Hpush Href Hfetch.
  rewrite (UpdateTableMetadataIfNotExist_pushing asset p Hpush), Href, Hfetch.
  reflexivity.
Qed.

(** With something to push, a name that is not of 2 or 3 non-empty
    segments fails with the malformed-name error before any call. *)
Theorem UpdateTableMetadataIfNotExist_malformed_name (asset : Asset.t) (p : Process W) :
  ~ nothingToPush asset ->
  ~ wellFormedSegments (strings.Split (Asset.Name asset) ".") ->
  UpdateTableMetadataIfNotExist config asset p
  = (Some (malformedName (Asset.Name asset)), p).
Proof.
  intros Hpush Hbad.
  rewrite (UpdateTableMetadataIfNotExist_pushing asset p Hpush).
  now rewrite (getTableRef_rejects config _ Hbad).
Qed.

(** What a call may do: it leaves the cache and the locks alone, deletes
    nothing and makes at most two calls; an update is only submitted for
    the table the asset's name resolves to, after the fetch of that table
    has returned metadata, and with the version token of that
    metadata. *)
Theorem UpdateTableMetadataIfNotExist_frame (asset : Asset.t) (p : Process W) :
  let run := UpdateTableMetadataIfNotExist config asset p in
  datasetNameCache run.2 = datasetNameCache p
  /\ datasetLocks run.2 = datasetLocks p
  /\ exists new,
       calls run.2 = (calls p ++ new)%list
       /\ (length new <= 2)%nat
       /\ deleteCalls new = 0%nat
       /\ forall tableRef update etag,
            In (TableUpdateCall tableRef update etag) new ->
            getTableRef config (Asset.Name asset) = inl tableRef
            /\ new = [TableMetadataCall tableRef; TableUpdateCall tableRef update etag]
            /\ exists meta,
                 (Table_Metadata tableRef (warehouse p)).1 = inl meta
                 /\ etag = TableMetadata.ETag meta.
Proof.
  cbv zeta.
  assert (Hdec : nothingToPush asset \/ ~ nothingToPush asset).
  { rewrite nothingToPush_test. destruct (_ && _); [now left|right; discriminate]. }
  destruct Hdec as [Hnothing|Hpush].
  - assert (E : UpdateTableMetadataIfNotExist config asset p = (Some NoMetadataUpdatedError, p)).
    { apply nothingToPush_test in Hnothing. unfold UpdateTableMetadataIfNotExist.
      destruct (columnsLoop (Asset.Columns asset) ∅ false) as [colsByName anyCol].
      simpl in Hnothing. now rewrite Hnothing. }
    rewrite E. simpl. split; [reflexivity|split; [reflexivity|]].
    exists []. rewrite app_nil_r. simpl.
      split; [reflexivity|split; [lia|split; [reflexivity|intros ? ? ? []]]].
  - rewrite (UpdateTableMetadataIfNotExist_pushing asset p Hpush).
    destruct (getTableRef config (Asset.Name asset)) as [tableRef|err] eqn:Href.
    + cbv zeta.
      destruct (Table_Metadata tableRef (warehouse p)) as [[meta|err] w1] eqn:Hfetch; simpl.
      * split; [reflexivity|split; [reflexivity|]].
        eexists. split; [reflexivity|]. simpl. split; [lia|split; [reflexivity|]].
        intros t u e [H|[H|[]]]; try discriminate. injection H as <- <- <-.
        split; [reflexivity|split; [reflexivity|]].
        exists meta. rewrite Hfetch. split; reflexivity.
      * split; [reflexivity|split; [reflexivity|]].
        eexists. split; [reflexivity|]. simpl. split; [lia|split; [reflexivity|]].
        intros t u e [H|[]]. discriminate.
    + simpl. split; [reflexivity|split; [reflexivity|]].
      exists []. rewrite app_nil_r. simpl.
      split; [reflexivity|split; [lia|split; [reflexivity|intros ? ? ? []]]].
Qed.

End ReconcilerProperties.

(** The schema pushed is the live schema field by field: same length,
    names and types, in the same order; only descriptions change. *)
Theorem pushed_schema_shape (asset : Asset.t) (meta : TableMetadata.t)
        (schema : list FieldSchema.t) :
  TableMetadataToUpdate.Schema
    (buildUpdate asset (columnsLoop (Asset.Columns asset) ∅ false).1 meta) = Some schema ->
  map FieldSchema.Name schema = map FieldSchema.Name (TableMetadata.Schema meta)
  /\ map FieldSchema.Type_ schema = map FieldSchema.Type_ (TableMetadata.Schema meta)
  /\ exists field col,
       In field (TableMetadata.Schema meta) /\ In col (Asset.Columns asset)
       /\ Column.Name col = FieldSchema.Name field.
Proof.
  rewrite buildUpdate_pushedUpdate. unfold pushedUpdate. simpl.
  destruct (existsb _ _) eqn:Hex; [|discriminate]. intros [= <-].
  split; [|split].
  - rewrite map_map. apply map_ext. intros field. unfold described.
    destruct (columnNamed _ _); reflexivity.
  - rewrite map_map. apply map_ext. intros field. unfold described.
    destruct (columnNamed _ _); reflexivity.
  - apply existsb_exists in Hex as (field & Hin & Hsome).
    apply bool_decide_eq_true in Hsome as [col Hcol].
    exists field, col. split; [assumption|].
    unfold columnNamed in Hcol. apply last_Some_elem_of in Hcol.
    apply list_elem_of_filter in Hcol as [Hname Hcol].
    split; [now apply list_elem_of_In|assumption].
Qed.

(** ** The query facade *)

Lemma As_formatError err g :
  errors.As (formatError err) = Some g -> Code g <> 404 /\ Code g <> 400.
Proof.
  unfold formatError. destruct (errors.As err) as [g'|] eqn:Has.
  - destruct ((Code g' =? 404) || (Code g' =? 400)) eqn:Hcode; simpl; [discriminate|].
    intros [= <-]. apply orb_false_iff in Hcode as [H404 H400].
    split; now apply Z.eqb_neq.
  - rewrite Has. discriminate.
Qed.

Section QuerierProperties.
Context {Q Value : Type} `{!QueryClient Q Value}.
Variable Query_String : Query.t -> string.
Variable Query_ToDryRunQuery : Query.t -> string.

Lemma selectLoop_rows (pending : list (list Value + error)) result rs :
  selectLoop pending result = inl rs
  <-> exists rs', pending = map inl rs' /\ rs = (result ++ rs')%list.
Proof.
  revert result. induction pending as [|[values|err] pending IH]; intros result; simpl.
  - split.
    + intros [= <-]. exists []. now rewrite app_nil_r.
    + intros ([|? ?] & Hp & ->); [now rewrite app_nil_r|discriminate].
  - rewrite IH. split.
    + intros (rs' & -> & ->). exists (values :: rs'). now rewrite <- app_assoc.
    + intros ([|v rs'] & Hp & ->); [discriminate|]. injection Hp as <- ->.
      exists rs'. now rewrite <- app_assoc.
  - split; [discriminate|]. intros ([|? ?] & Hp & _); discriminate.
Qed.

Lemma selectLoop_error (pending : list (list Value + error)) result e :
  selectLoop pending result = inr e
  <-> exists before after, pending = (map inl before ++ inr e :: after)%list.
Proof.
  revert result. induction pending as [|[values|err] pending IH]; intros result; simpl.
  - split; [discriminate|]. intros ([|? ?] & after & Hp); discriminate.
  - rewrite IH. split.
    + intros (before & after & ->). now exists (values :: before), after.
    + intros ([|v before] & after & Hp); [discriminate|]. injection Hp as <- ->.
      now exists before, after.
  - split.
    + intros [= <-]. now exists [], pending.
    + intros ([|v before] & after & Hp); [|discriminate]. now injection Hp as ->.
Qed.

Lemma selectWithSchemaLoop_selectLoop (pending : list (list Value + error)) rows :
  selectWithSchemaLoop pending rows
  = match selectLoop pending rows with
    | inl rs => inl rs
    | inr err => inr (wrapError "failed to read row" err)
    end.
Proof.
  revert rows. induction pending as [|[values|err] pending IH]; intros rows; simpl;
    [reflexivity|apply IH|reflexivity].
Qed.

Lemma schemaColumns_map schema columns columnTypes :
  schemaColumns schema columns columnTypes
  = ((columns ++ map FieldSchema.Name schema)%list,
     (columnTypes ++ map FieldSchema.Type_ schema)%list).
Proof.
  revert columns columnTypes. induction schema as [|field schema IH];
    intros columns columnTypes; simpl.
  - now rewrite !app_nil_r.
  - rewrite IH, <- !app_assoc. reflexivity.
Qed.

(** [Select] succeeds exactly when the read succeeds and every answer of
    the iterator is a row, and then returns all the rows, in the order of
    the iterator. *)
Theorem Select_rows (query : Query.t) (q : Q) (rs : list (list Value)) :
  (Select Query_String query q).1 = inl rs
  <-> exists rows,
        (Query_Read (Query_String query) q).1 = inl rows
        /\ RowIterator.pending rows = map inl rs.
Proof.
  unfold Select.
  destruct (Query_Read (Query_String query) q) as [[rows|err] q']; simpl.
  - rewrite selectLoop_rows. split.
    + intros (rs' & Hp & ->). now exists rows.
    + intros (rows' & [= <-] & Hp). now exists rs.
  - split; [discriminate|]. intros (rows & [=] & _).
Qed.

(** [Select] fails in two ways: with the translated error of a read that
    failed, or with the first error the iterator answers, as it is, the
    rows before it being dropped. *)
Theorem Select_failure (query : Query.t) (q : Q) (e : error) :
  (Select Query_String query q).1 = inr e
  <-> (exists err, (Query_Read (Query_String query) q).1 = inr err /\ e = formatError err)
      \/ (exists rows before after,
            (Query_Read (Query_String query) q).1 = inl rows
            /\ RowIterator.pending rows = (map inl before ++ inr e :: after)%list).
Proof.
  unfold Select.
  destruct (Query_Read (Query_String query) q) as [[rows|err] q']; simpl.
  - rewrite selectLoop_error. split.
    + intros (before & after & Hp). right. now exists rows, before, after.
    + intros [(err & [=] & _)|(rows' & before & after & [= <-] & Hp)]. now exists before, after.
  - split.
    + intros [= <-]. left. now exists err.
    + intros [(err' & [= <-] & ->)|(rows & ? & ? & [=] & _)]. reflexivity.
Qed.

(** [SelectWithSchema] succeeds exactly when the read succeeds, every
    answer of the iterator is a row and the iterator has a schema; the
    result then holds all the rows in order, and the names and the types
    of the fields of the schema, in order, as columns and column types, so
    the two have the same length. *)
Theorem SelectWithSchema_result (queryObj : Query.t) (q : Q) (res : QueryResult.t Value) :
  (SelectWithSchema Query_String queryObj q).1 = inl res
  <-> exists rows schema,
        (Query_Read (Query_String queryObj) q).1 = inl rows
        /\ RowIterator.pending rows = map inl (QueryResult.Rows res)
        /\ RowIterator.Schema rows = Some schema
        /\ QueryResult.Columns res = map FieldSchema.Name schema
        /\ QueryResult.ColumnTypes res = map FieldSchema.Type_ schema.
Proof.
  unfold SelectWithSchema.
  destruct (Query_Read (Query_String queryObj) q) as [[rows|err] q']; simpl.
  - rewrite selectWithSchemaLoop_selectLoop.
    destruct (selectLoop (RowIterator.pending rows) []) as [rs|err] eqn:Hloop; simpl.
    + apply selectLoop_rows in Hloop as (rs' & Hp & ->). simpl.
      destruct (RowIterator.Schema rows) as [schema|] eqn:Hs.
      * rewrite schemaColumns_map. simpl. split.
        -- intros [= <-]. exists rows, schema. simpl. auto.
        -- intros (rows' & schema' & [= <-] & Hp' & Hs' & Hc & Ht).
           rewrite Hs in Hs'. injection Hs' as <-. destruct res as [c r t]. simpl in *.
           rewrite Hp in Hp'. apply (inj (map inl)) in Hp'. congruence.
      * simpl. split; [discriminate|].
        intros (rows' & schema' & [= <-] & _ & Hs' & _). congruence.
    + split; [discriminate|].
      intros (rows' & schema' & [= <-] & Hp' & _).
      assert (Hok : selectLoop (RowIterator.pending rows) [] = inl ([] ++ QueryResult.Rows res)%list)
        by (apply selectLoop_rows; eauto).
      congruence.
  - split; [discriminate|]. intros (rows & ? & [=] & _).
Qed.

(** [SelectWithSchema] fails in three ways: a read that failed and the
    first error of the iterator are returned wrapped, not translated, so
    the API error stays in the chain; and when all rows have been read but
    the iterator has no schema, the rows are dropped and the error says
    that schema information is not available. *)
Theorem SelectWithSchema_failure (queryObj : Query.t) (q : Q) (e : error) :
  (SelectWithSchema Query_String queryObj q).1 = inr e
  <-> (exists err,
         (Query_Read (Query_String queryObj) q).1 = inr err
         /\ e = wrapError "failed to initiate query read" err)
      \/ (exists rows before err after,
            (Query_Read (Query_String queryObj) q).1 = inl rows
            /\ RowIterator.pending rows = (map inl before ++ inr err :: after)%list
            /\ e = wrapError "failed to read row" err)
      \/ (exists rows rs,
            (Query_Read (Query_String queryObj) q).1 = inl rows
            /\ RowIterator.pending rows = map inl rs
            /\ RowIterator.Schema rows = None
            /\ e = errorString "schema information is not available").
Proof.
  unfold SelectWithSchema.
  destruct (Query_Read (Query_String queryObj) q) as [[rows|err] q']; simpl.
  - rewrite selectWithSchemaLoop_selectLoop.
    destruct (selectLoop (RowIterator.pending rows) []) as [rs|err] eqn:Hloop; simpl.
    + pose proof Hloop as Hrows.
      apply selectLoop_rows in Hrows as (rs' & Hp & ->). simpl.
      destruct (RowIterator.Schema rows) as [schema|] eqn:Hs.
      * rewrite schemaColumns_map. simpl. split; [discriminate|].
        intros [(err & [=] & _)|[(rows' & before & err & after & [= <-] & Hp' & _)
                                |(rows' & rs & [= <-] & _ & Hs' & _)]].
        -- assert (Hbad : selectLoop (RowIterator.pending rows) [] = inr err)
             by (apply selectLoop_error; eauto).
           congruence.
        -- congruence.
      * simpl. split.
        -- intros [= <-]. right; right. exists rows, rs'. auto.
        -- intros [(err & [=] & _)|[(rows' & before & err & after & [= <-] & Hp' & _)
                                   |(rows' & rs & [= <-] & _ & _ & ->)]]; [|reflexivity].
           assert (Hbad : selectLoop (RowIterator.pending rows) [] = inr err)
             by (apply selectLoop_error; eauto).
           congruence.
    + pose proof Hloop as Herr. apply selectLoop_error in Herr as (before & after & Hp).
      split.
      * intros [= <-]. right; left. exists rows, before, err, after. auto.
      * intros [(err' & [=] & _)|[(rows' & before' & err' & after' & [= <-] & Hp' & ->)
                                 |(rows' & rs & [= <-] & Hp' & _)]].
        -- assert (Hbad : selectLoop (RowIterator.pending rows) [] = inr err')
             by (apply selectLoop_error; eauto).
           congruence.
        -- assert (Hok : selectLoop (RowIterator.pending rows) [] = inl ([] ++ rs)%list)
             by (apply selectLoop_rows; eauto).
           congruence.
  - split.
    + intros [= <-]. left. now exists err.
    + intros [(err' & [= <-] & ->)|[(rows & ? & ? & ? & [=] & _)|(rows & ? & [=] & _)]].
      reflexivity.
Qed.

(** [RunQueryWithoutResult] succeeds exactly when the read succeeds; its
    error is the translated error of the read, which never carries an API
    error with status 404 or 400. *)
Theorem RunQueryWithoutResult_result (query : Query.t) (q : Q) :
  match (RunQueryWithoutResult Query_String query q).1 with
  | None => exists rows, (Query_Read (Query_String query) q).1 = inl rows
  | Some e =>
      (exists err, (Query_Read (Query_String query) q).1 = inr err /\ e = formatError err)
      /\ forall g, errors.As e = Some g -> Code g <> 404 /\ Code g <> 400
  end.
Proof.
  unfold RunQueryWithoutResult.
  destruct (Query_Read (Query_String query) q) as [[rows|err] q']; simpl.
  - now exists rows.
  - split; [now exists err|]. intros g. apply As_formatError.
Qed.

(** [Ping] reads the query "SELECT 1" and succeeds exactly when that read
    does; its error is the translated error of the read wrapped with the
    message of the connection test, and never carries an API error with
    status 404 or 400. *)
Theorem Ping_result (q : Q) :
  let read := Query_Read (Query_String {| Query.Query := "SELECT 1" |}) q in
  (Ping Query_String q).2 = read.2
  /\ match (Ping Query_String q).1 with
     | None => exists rows, read.1 = inl rows
     | Some e =>
         (exists err,
            read.1 = inr err
            /\ e = wrapError "failed to run test query on Bigquery connection"
                             (formatError err))
         /\ forall g, errors.As e = Some g -> Code g <> 404 /\ Code g <> 400
     end.
Proof.
  cbv zeta. unfold Ping, RunQueryWithoutResult.
  destruct (Query_Read (Query_String {| Query.Query := "SELECT 1" |}) q)
    as [[rows|err] q']; simpl.
  - split; [reflexivity|]. now exists rows.
  - split; [reflexivity|]. split; [now exists err|]. intros g. apply As_formatError.
Qed.

(** [IsValid] answers true exactly when it answers without an error, and
    that is when the dry run starts and its status holds no error; an
    error of the status is returned as it is, a failure to start is
    translated. *)
Theorem IsValid_result (query : Query.t) (q : Q) :
  let dry := Query_DryRun (Query_ToDryRunQuery query) q in
  let r := (IsValid Query_ToDryRunQuery query q).1 in
  (r.1 = true <-> r.2 = None)
  /\ (r = (true, None) <-> dry.1 = inl None)
  /\ (forall err, dry.1 = inl (Some err) -> r = (false, Some err))
  /\ (forall err, dry.1 = inr err -> r = (false, Some (formatError err))).
Proof.
  cbv zeta. unfold IsValid.
  destruct (Query_DryRun (Query_ToDryRunQuery query) q) as [[[err|]|err] q']; simpl;
    (split; [split; intros; congruence|]);
    (split; [split; intros; congruence|]);
    split; intros; congruence.
Qed.

End QuerierProperties.

(** ** Further runs *)

Lemma DropTableOnMismatch_malformed_name_events :
  DropTableOnMismatch "none" Fixtures.home "events" Fixtures.eventsAsset
    (Mem.start Fixtures.driftedWarehouse)
  = (Some (malformedName "events"), Mem.start Fixtures.driftedWarehouse).
Proof.
  apply DropTableOnMismatch_malformed_name.
  intros [[H|H] _]; vm_compute in H; discriminate.
Defined.

Lemma DropTableOnMismatch_fetch_failure_backend :
  exists failure,
    DropTableOnMismatch "none" Fixtures.home "proj.ds.events" Fixtures.eventsAsset
      (Faulty.start (Faulty.mk Fixtures.driftedWarehouse (Some Fixtures.serverError) None))
    = (Some failure,
       mkProcess (Faulty.mk Fixtures.driftedWarehouse (Some Fixtures.serverError) None) ∅ ∅
                 ([] ++ [TableMetadataCall Fixtures.eventsRef]))
    /\ failure = wrapError ("failed to fetch metadata for table '" ++ "proj.ds.events" ++ "'")
                           (googleapiError Fixtures.serverError)
    /\ errors.As failure = errors.As (googleapiError Fixtures.serverError).
Proof.
  exact (DropTableOnMismatch_fetch_failure "none" Fixtures.home "proj.ds.events"
           Fixtures.eventsAsset
           (Faulty.start (Faulty.mk Fixtures.driftedWarehouse (Some Fixtures.serverError) None))
           Fixtures.eventsRef (googleapiError Fixtures.serverError) _
           eq_refl eq_refl eq_refl).
Defined.

Lemma CreateDataSetIfNotExist_other_names_four :
  CreateDataSetIfNotExist Fixtures.home (Fixtures.asset "a.b.c.d" "" [] "table" "" [])
    (Mem.start Fixtures.emptyWarehouse)
  = (None, Mem.start Fixtures.emptyWarehouse).
Proof.
  apply CreateDataSetIfNotExist_other_names; vm_compute; discriminate.
Defined.

Lemma CreateDataSetIfNotExist_cached_home_ds :
  CreateDataSetIfNotExist Fixtures.home (Fixtures.asset "ds.events" "" [] "table" "" [])
    Fixtures.cachedProcess
  = (None, Fixtures.cachedProcess).
Proof.
  apply (CreateDataSetIfNotExist_cached Fixtures.home _ _ ("home", "ds") true);
    vm_compute; reflexivity.
Defined.

Lemma CreateDataSetIfNotExist_retries_backend :
  exists d more,
    datasetOf Fixtures.home "ds.events" = Some d
    /\ calls (CreateDataSetIfNotExist Fixtures.home (Fixtures.asset "ds.events" "" [] "table" "" [])
                (CreateDataSetIfNotExist Fixtures.home
                   (Fixtures.asset "ds.events" "" [] "table" "" [])
                   (Faulty.start (Faulty.mk Fixtures.emptyWarehouse
                                            (Some Fixtures.serverError) None))).2).2
       = (calls (CreateDataSetIfNotExist Fixtures.home
                   (Fixtures.asset "ds.events" "" [] "table" "" [])
                   (Faulty.start (Faulty.mk Fixtures.emptyWarehouse
                                            (Some Fixtures.serverError) None))).2
          ++ DatasetMetadataCall d.1 d.2 :: more)%list.
Proof.
  exact (CreateDataSetIfNotExist_retries Fixtures.home
           (Fixtures.asset "ds.events" "" [] "table" "" [])
           (Faulty.start (Faulty.mk Fixtures.emptyWarehouse (Some Fixtures.serverError) None))
           (wrapError "failed to fetch metadata for table 'ds.events'"
                      (googleapiError Fixtures.serverError))
           eq_refl).
Defined.

Lemma CreateDataSetIfNotExist_created_once_home_ds :
  CreateDataSetIfNotExist Fixtures.home (Fixtures.asset "home.ds.users" "" [] "table" "" [])
    (CreateDataSetIfNotExist Fixtures.home (Fixtures.asset "ds.events" "" [] "table" "" [])
       (Mem.start Fixtures.emptyWarehouse)).2
  = (None,
     (CreateDataSetIfNotExist Fixtures.home (Fixtures.asset "ds.events" "" [] "table" "" [])
        (Mem.start Fixtures.emptyWarehouse)).2).
Proof.
  exact (CreateDataSetIfNotExist_created_once Fixtures.home
           (Fixtures.asset "ds.events" "" [] "table" "" [])
           (Fixtures.asset "home.ds.users" "" [] "table" "" [])
           (Mem.start Fixtures.emptyWarehouse) ("home", "ds")
           (Mem.notFound "ds") Fixtures.emptyWarehouse
           (Mem.mk [("home", "ds")] [] None)
           eq_refl eq_refl eq_refl eq_refl eq_refl eq_refl).
Defined.

Lemma UpdateTableMetadataIfNotExist_submits_users :
  UpdateTableMetadataIfNotExist Fixtures.home Fixtures.usersAsset
    (Mem.start Fixtures.usersWarehouse)
  = (None,
     mkProcess Fixtures.usersWarehouse ∅ ∅
       ([] ++ [TableMetadataCall Fixtures.usersRef;
               TableUpdateCall Fixtures.usersRef
                 (pushedUpdate Fixtures.usersAsset Fixtures.usersLive) "etag-1"])).
Proof.
  assert (Hpush : ~ nothingToPush Fixtures.usersAsset).
  { intros [Hdesc _]. vm_compute in Hdesc. discriminate. }
  exact (UpdateTableMetadataIfNotExist_submits Fixtures.home Fixtures.usersAsset
           (Mem.start Fixtures.usersWarehouse) Fixtures.usersRef Fixtures.usersLive
           Fixtures.usersWarehouse Hpush eq_refl eq_refl).
Defined.

Lemma UpdateTableMetadataIfNotExist_fetch_failure_absent :
  UpdateTableMetadataIfNotExist Fixtures.home Fixtures.usersAsset
    (Mem.start Fixtures.emptyWarehouse)
  = (None, mkProcess Fixtures.emptyWarehouse ∅ ∅ ([] ++ [TableMetadataCall Fixtures.usersRef])).
Proof.
  assert (Hpush : ~ nothingToPush Fixtures.usersAsset).
  { intros [Hdesc _]. vm_compute in Hdesc. discriminate. }
  exact (UpdateTableMetadataIfNotExist_fetch_failure Fixtures.home Fixtures.usersAsset
           (Mem.start Fixtures.emptyWarehouse) Fixtures.usersRef (Mem.notFound "users")
           Fixtures.emptyWarehouse Hpush eq_refl eq_refl).
Defined.

Lemma UpdateTableMetadataIfNotExist_malformed_name_users :
  UpdateTableMetadataIfNotExist Fixtures.home
    (Fixtures.asset "users" "Users of the shop" [] "table" "" [])
    (Mem.start Fixtures.usersWarehouse)
  = (Some (malformedName "users"), Mem.start Fixtures.usersWarehouse).
Proof.
  apply (UpdateTableMetadataIfNotExist_malformed_name Fixtures.home
           (Fixtures.asset "users" "Users of the shop" [] "table" "" [])).
  - intros [Hdesc _]. vm_compute in Hdesc. discriminate.
  - intros [[H|H] _]; vm_compute in H; discriminate.
Defined.

Lemma pushed_schema_shape_users :
  map FieldSchema.Name (TableMetadata.Schema Fixtures.usersLive)
  = map FieldSchema.Name (TableMetadata.Schema Fixtures.usersLive)
  /\ map FieldSchema.Type_ (TableMetadata.Schema Fixtures.usersLive)
     = map FieldSchema.Type_ (TableMetadata.Schema Fixtures.usersLive)
  /\ exists field col,
       In field (TableMetadata.Schema Fixtures.usersLive)
       /\ In col (Asset.Columns Fixtures.usersAsset)
       /\ Column.Name col = FieldSchema.Name field.
Proof.
  exact (pushed_schema_shape Fixtures.usersAsset Fixtures.usersLive
           (TableMetadata.Schema Fixtures.usersLive) eq_refl).
Defined.

(** A column without a description empties the description of the live
    field of its name when the asset has something else to push. *)
Example UpdateTableMetadataIfNotExist_empties_description :
  TableMetadataToUpdate.Schema
    (pushedUpdate
       (Fixtures.asset "ds.users" "Users of the shop"
          [ {| Column.Name := "id"; Column.Description := ""; Column.PrimaryKey := false |} ]
          "table" "" [])
       {| TableMetadata.Type_ := "TABLE"; TableMetadata.Description := "";
          TableMetadata.Schema :=
            [ {| FieldSchema.Name := "id"; FieldSchema.Description := "the key";
                 FieldSchema.Type_ := "INTEGER" |} ];
          TableMetadata.TimePartitioning := None; TableMetadata.RangePartitioning := None;
          TableMetadata.Clustering := None; TableMetadata.TableConstraints := None;
          TableMetadata.ETag := "etag-1" |})
  = Some [ {| FieldSchema.Name := "id"; FieldSchema.Description := "";
              FieldSchema.Type_ := "INTEGER" |} ].
Proof. vm_compute. reflexivity. Qed.

Example Select_two_rows :
  (Select Query.Query {| Query.Query := "SELECT id, n FROM t" |} QueryFixtures.service).1
  = inl [[1; 10]; [2; 20]]
  /\ (Select Query.Query {| Query.Query := "SELECT id, n FROM v" |} QueryFixtures.service).1
     = inr QueryFixtures.quotaError
  /\ (Select Query.Query {| Query.Query := "SELECT * FROM missing" |} QueryFixtures.service).1
     = inr (errorString "Not found: Table missing").
Proof. repeat split. Qed.

Example SelectWithSchema_two_rows :
  (SelectWithSchema Query.Query {| Query.Query := "SELECT id, n FROM t" |} QueryFixtures.service).1
  = inl (QueryResult.mk ["id"; "n"] [[1; 10]; [2; 20]] ["INTEGER"; "NUMERIC"])
  /\ (SelectWithSchema Query.Query {| Query.Query := "SELECT id, n FROM u" |} QueryFixtures.service).1
     = inr (errorString "schema information is not available")
  /\ (SelectWithSchema Query.Query {| Query.Query := "SELECT id, n FROM v" |} QueryFixtures.service).1
     = inr (wrapError "failed to read row" QueryFixtures.quotaError).
Proof. repeat split. Qed.

Example Ping_service :
  (Ping Query.Query QueryFixtures.service).1 = None
  /\ (Ping Query.Query ([] : Canned.t)).1
     = Some (wrapError "failed to run test query on Bigquery connection"
                       (errorString "Syntax error")).
Proof. repeat split. Qed.

Example IsValid_service :
  (IsValid Query.Query {| Query.Query := "SELECT id, n FROM t" |} QueryFixtures.service).1
  = (true, None)
  /\ (IsValid Query.Query {| Query.Query := "SELECT x FROM t" |} QueryFixtures.service).1
     = (false, Some Canned.invalidQuery)
  /\ (IsValid Query.Query {| Query.Query := "SELECT * FROM missing" |} QueryFixtures.service).1
     = (false, Some (errorString "Not found: Table missing")).
Proof. repeat split. Qed.
